(** * The AT-command transaction engine of the ESP-AT test harness

    A shallow embedding of the request/response logic that the Python test
    scripts under [atbn_tests/] share: the size-adaptive timeout
    ([test_timeout_calculation.py]), the line collection loops of
    [ATBNTester.send_command] ([test_atbn_comprehensive.py]),
    [SimpleATTester.send_at_command] ([simple_test.py]) and
    [PerformanceTester.send_at_command] ([performance_test.py]), and the
    [+LEN:]/[+POST:] marker extraction ([test_atbn_spec_compliance.py],
    [performance_test.py]).

    Python [str] values are lists of Unicode code points, [bytes] values are
    lists of [byte]; Python integers are [Z]. *)

From Stdlib Require Import ZArith List Bool Lia.
From Stdlib.Strings Require Import String Ascii Byte.
Import ListNotations.
Local Open Scope Z_scope.

(** ** Python strings *)

Module PyStr.

(** A [str] is a sequence of code points. *)
Definition pystr := list Z.

Definition code (b : byte) : Z := Z.of_N (Byte.to_N b).

(** An ASCII literal of the source, as a [str]. *)
Definition lit (s : string) : pystr := map code (list_byte_of_string s).

Fixpoint str_eqb (a b : pystr) : bool :=
  match a, b with
  | [], [] => true
  | x :: a', y :: b' => (x =? y) && str_eqb a' b'
  | _, _ => false
  end.

(** [x in [a, b, ...]] on strings. *)
Definition str_in (x : pystr) (l : list pystr) : bool := existsb (str_eqb x) l.

(** [str.isspace] on one code point (the table of [Py_UNICODE_ISSPACE]). *)
Definition is_space (c : Z) : bool :=
  ((9 <=? c) && (c <=? 13)) || ((28 <=? c) && (c <=? 32))
  || (c =? 133) || (c =? 160) || (c =? 5760)
  || ((8192 <=? c) && (c <=? 8202))
  || (c =? 8232) || (c =? 8233) || (c =? 8239) || (c =? 8287) || (c =? 12288).

Fixpoint lstrip (s : pystr) : pystr :=
  match s with
  | [] => []
  | c :: s' => if is_space c then lstrip s' else s
  end.

Definition rstrip (s : pystr) : pystr := rev (lstrip (rev s)).

(** [s.strip()] with no argument. *)
Definition strip (s : pystr) : pystr := rstrip (lstrip s).

(** [sep.join(parts)]. *)
Fixpoint join (sep : pystr) (parts : list pystr) : pystr :=
  match parts with
  | [] => []
  | [p] => p
  | p :: rest => p ++ sep ++ join sep rest
  end.

Definition newline : pystr := [10].

End PyStr.
Import PyStr.

(** ** [bytes.decode('utf-8', errors='ignore')] *)

Module Utf8.

Definition between (lo hi c : Z) : bool := (lo <=? c) && (c <=? hi).

Definition is_cont (b : byte) : bool := between 128 191 (code b).

(** Bounds of the second byte of a three-byte sequence led by [c0]. *)
Definition second3 (c0 : Z) (b : byte) : bool :=
  if c0 =? 224 then between 160 191 (code b)
  else if c0 =? 237 then between 128 159 (code b)
  else between 128 191 (code b).

(** Bounds of the second byte of a four-byte sequence led by [c0]. *)
Definition second4 (c0 : Z) (b : byte) : bool :=
  if c0 =? 240 then between 144 191 (code b)
  else if c0 =? 244 then between 128 143 (code b)
  else between 128 191 (code b).

(** The decoder emits the code point of every well-formed sequence and, with
    [errors='ignore'], emits nothing for the bytes of an ill-formed one.  The
    bytes the error handler skips after a rejected lead byte are continuation
    bytes, which are no lead bytes themselves, so skipping the lead byte alone
    and resuming at the next byte produces the same string. *)
Fixpoint decode (bs : list byte) : pystr :=
  match bs with
  | [] => []
  | b0 :: r0 =>
    let c0 := code b0 in
    if c0 <? 128 then c0 :: decode r0
    else if between 194 223 c0 then
      match r0 with
      | b1 :: r1 =>
        if is_cont b1
        then ((c0 - 192) * 64 + (code b1 - 128)) :: decode r1
        else decode r0
      | [] => decode r0
      end
    else if between 224 239 c0 then
      match r0 with
      | b1 :: (b2 :: r2) =>
        if second3 c0 b1 && is_cont b2
        then ((c0 - 224) * 4096 + (code b1 - 128) * 64 + (code b2 - 128))
               :: decode r2
        else decode r0
      | _ => decode r0
      end
    else if between 240 244 c0 then
      match r0 with
      | b1 :: (b2 :: (b3 :: r3)) =>
        if second4 c0 b1 && is_cont b2 && is_cont b3
        then ((c0 - 240) * 262144 + (code b1 - 128) * 4096
              + (code b2 - 128) * 64 + (code b3 - 128)) :: decode r3
        else decode r0
      | _ => decode r0
      end
    else decode r0
  end.



End Utf8.

(** ** [str.encode('utf-8')] and what decoding owes to it

    The encoder of the same codec defines which byte sequences are valid
    text: the encodings of the Unicode scalar values. *)

Module Codec.
Import Utf8.






End Codec.
Import Codec.

(** ** The size-adaptive timeout ([test_timeout_calculation.py]) *)

Module Timeout.

Definition calculate_timeout_ms (content_length : Z) : Z :=
  if content_length =? 0 then 300000
  else
    let min_speed_bytes_per_sec := 50 * 1024 in
    let base_timeout_ms := 60000 in
    let max_timeout_ms := 3600000 in
    let min_timeout_ms := 300000 in
    let calculated_timeout :=
      base_timeout_ms + (content_length * 2000 / min_speed_bytes_per_sec) in
    let calculated_timeout :=
      if calculated_timeout <? min_timeout_ms then min_timeout_ms
      else calculated_timeout in
    let calculated_timeout :=
      if max_timeout_ms <? calculated_timeout then max_timeout_ms
      else calculated_timeout in
    calculated_timeout.

End Timeout.

(** ** The serial link, the clock and the logger

    One transaction polls the port once per turn of its loop.  The world it
    runs in is a finite script of [tick]s, one per turn: the value
    [time.time()] returns at the loop test (in milliseconds), the bytes the
    device delivered into the driver's input buffer since the previous turn,
    and whether the link broke meanwhile.  A script that has run out stands
    for a clock past every deadline. *)

Module Serial.

Record tick := mkTick {
  t_clock : Z;
  t_arrived : list byte;
  t_drop : bool
}.

(** What [logger] and [print] record. *)
Inductive record :=
| Error_NotEstablished                 (* "Serial connection not established" *)
| Info_Sent (command : string)         (* f"Sent: {command}" *)
| Info_Received (line : pystr)         (* f"Received: {line}" *)
| Warning_Timeout (command : string)   (* f"Command timeout: {command}" *)
| Error_Sending (command : string)     (* f"Error sending command ..." *)
| Print_NotConnected                   (* "Not connected!" *)
| Print_Sending (command : string)     (* f"\nSending: {command}" *)
| Print_Response (line : pystr).       (* f"Response: {line}" *)

(** The tester object with its [serial.Serial] connection, the clock and the
    log. *)
Record state := mkState {
  connected : bool;          (* the connection attribute is not None *)
  is_open : bool;            (* serial_conn.is_open *)
  link_up : bool;            (* false: every port operation raises *)
  rxbuf : list byte;         (* unread input held by the driver *)
  txlog : list byte;         (* every byte written so far *)
  self_timeout : Z;          (* self.timeout, seconds *)
  now : Z;                   (* the clock, milliseconds *)
  log : list record
}.

Definition set_rxbuf (buf : list byte) (s : state) : state :=
  mkState (connected s) (is_open s) (link_up s) buf (txlog s)
          (self_timeout s) (now s) (log s).

Definition logging (r : record) (s : state) : state :=
  mkState (connected s) (is_open s) (link_up s) (rxbuf s) (txlog s)
          (self_timeout s) (now s) (log s ++ [r]).

(** [reset_input_buffer()]: the driver forgets its unread input. *)
Definition reset_input_buffer (s : state) : state := set_rxbuf [] s.

(** [write(data)]. *)
Definition write (data : list byte) (s : state) : state :=
  mkState (connected s) (is_open s) (link_up s) (rxbuf s) (txlog s ++ data)
          (self_timeout s) (now s) (log s).

(** The passage of one turn: the clock moves, bytes arrive, the link may
    break. *)
Definition arrive (tk : tick) (s : state) : state :=
  mkState (connected s) (is_open s) (link_up s && negb (t_drop tk))
          (rxbuf s ++ t_arrived tk) (txlog s)
          (self_timeout s) (t_clock tk) (log s).

(** [readline()] on a non-empty buffer: the bytes up to and including the
    first line feed, or the whole buffer when it holds none (the port's read
    timeout ends the call). Returns the line and the bytes left unread. *)
Fixpoint readline (buf : list byte) : list byte * list byte :=
  match buf with
  | [] => ([], [])
  | b :: rest =>
    if code b =? 10 then ([b], rest)
    else let (l, rest') := readline rest in (b :: l, rest')
  end.

(** [a or b] on an optional integer: [None] and [0] are falsy. *)
Definition py_or (a : option Z) (b : Z) : Z :=
  match a with
  | Some t => if t =? 0 then b else t
  | None => b
  end.

(** How a [while] loop with [return]s inside a [try] is left. *)
Inductive loop_exit (A : Type) :=
| Returned (v : A)                    (* a [return] inside the loop *)
| Expired (lines : list pystr)        (* the loop test failed *)
| Raised.                             (* an exception left the loop *)
Arguments Returned {A} v.
Arguments Expired {A} lines.
Arguments Raised {A}.

(** The result of a call that has no [try] around its port operations. *)
Inductive outcome (A : Type) :=
| Value (v : A)
| Exception.     (* a [SerialException] propagates to the caller *)
Arguments Value {A} v.
Arguments Exception {A}.

Definition terminal_tokens : list pystr :=
  [lit "OK"; lit "ERROR"; lit "SEND OK"; lit "SEND FAIL"].
Definition success_tokens : list pystr := [lit "OK"; lit "SEND OK"].
Definition prompt : pystr := lit ">".

(** The lines a log records as received, oldest first. *)
Fixpoint received (l : list record) : list pystr :=
  match l with
  | [] => []
  | Info_Received line :: l' => line :: received l'
  | Print_Response line :: l' => line :: received l'
  | _ :: l' => received l'
  end.

(** What a call added to the log, and the lines it recorded as received. *)
Definition since (s s' : state) : list record :=
  skipn (List.length (log s)) (log s').
Definition heard (s s' : state) : list pystr := received (since s s').

(** A line at which [send_command] stops collecting. *)
Definition stops (expect_data_prompt : bool) (line : pystr) : bool :=
  (expect_data_prompt && str_eqb line prompt) || str_in line terminal_tokens.

End Serial.
Import Serial.

(** ** [ATBNTester.send_command] ([test_atbn_comprehensive.py]) *)

Module ATBNTester.

(** The [while] loop of [send_command], one tick per turn. *)
Fixpoint collect (expect_data_prompt : bool) (start_time cmd_timeout : Z)
    (response_lines : list pystr) (future : list tick) (s : state)
    : loop_exit (bool * list pystr) * state * list tick :=
  match future with
  | [] => (Expired response_lines, s, [])
  | tk :: future' =>
    let s := arrive tk s in
    if now s - start_time <? 1000 * cmd_timeout then
      if link_up s then
        if 0 <? Z.of_nat (List.length (rxbuf s)) then
          let (raw, rest) := readline (rxbuf s) in
          let s := set_rxbuf rest s in
          let line := strip (Utf8.decode raw) in
          match line with
          | [] => collect expect_data_prompt start_time cmd_timeout
                    response_lines future' s
          | _ :: _ =>
            let response_lines := response_lines ++ [line] in
            let s := logging (Info_Received line) s in
            if expect_data_prompt && str_eqb line prompt then
              (Returned (true, response_lines), s, future')
            else if str_in line terminal_tokens then
              let success := str_in line success_tokens in
              (Returned (success, response_lines), s, future')
            else collect expect_data_prompt start_time cmd_timeout
                   response_lines future' s
          end
        else collect expect_data_prompt start_time cmd_timeout
               response_lines future' s
      else (Raised, s, future')
    else (Expired response_lines, s, future')
  end.

Definition send_command (command : string) (timeout : option Z)
    (expect_data_prompt : bool) (s : state) (future : list tick)
    : (bool * list pystr) * state * list tick :=
  if negb (connected s) || negb (is_open s) then
    ((false, []), logging Error_NotEstablished s, future)
  else
    let cmd_timeout := py_or timeout (self_timeout s) in
    if link_up s then
      let s := reset_input_buffer s in
      let cmd_bytes := list_byte_of_string command ++ [x0d; x0a] in
      let s := write cmd_bytes s in
      let s := logging (Info_Sent command) s in
      let response_lines := [] in
      let start_time := now s in
      match collect expect_data_prompt start_time cmd_timeout
                    response_lines future s with
      | (Returned v, s, future) => (v, s, future)
      | (Expired response_lines, s, future) =>
        ((false, response_lines), logging (Warning_Timeout command) s, future)
      | (Raised, s, future) =>
        ((false, []), logging (Error_Sending command) s, future)
      end
    else ((false, []), logging (Error_Sending command) s, future).

End ATBNTester.

(** ** [SimpleATTester.send_at_command] ([simple_test.py]) *)

Module SimpleATTester.

Fixpoint response_loop (start_time timeout : Z) (response_lines : list pystr)
    (future : list tick) (s : state)
    : loop_exit (bool * pystr) * state * list tick :=
  match future with
  | [] => (Expired response_lines, s, [])
  | tk :: future' =>
    let s := arrive tk s in
    if now s - start_time <? 1000 * timeout then
      if link_up s then
        if 0 <? Z.of_nat (List.length (rxbuf s)) then
          let (raw, rest) := readline (rxbuf s) in
          let s := set_rxbuf rest s in
          let line := strip (Utf8.decode raw) in
          match line with
          | [] => response_loop start_time timeout response_lines future' s
          | _ :: _ =>
            let s := logging (Print_Response line) s in
            let response_lines := response_lines ++ [line] in
            if str_in line terminal_tokens then
              let success := str_in line success_tokens in
              (Returned (success, join newline response_lines), s, future')
            else response_loop start_time timeout response_lines future' s
          end
        else response_loop start_time timeout response_lines future' s
      else (Raised, s, future')
    else (Expired response_lines, s, future')
  end.

Definition send_at_command (command : string) (s : state)
    (future : list tick) : outcome (bool * pystr) * state * list tick :=
  if negb (connected s) then
    (Value (false, lit "Not connected"), logging Print_NotConnected s, future)
  else
    let s := logging (Print_Sending command) s in
    if link_up s then
      let s := write (list_byte_of_string command ++ [x0d; x0a]) s in
      let start_time := now s in
      let response_lines := [] in
      match response_loop start_time (self_timeout s) response_lines
                          future s with
      | (Returned v, s, future) => (Value v, s, future)
      | (Expired response_lines, s, future) =>
        let response_text :=
          match response_lines with
          | [] => lit "TIMEOUT"
          | _ :: _ => join newline response_lines
          end in
        (Value (false, response_text), s, future)
      | (Raised, s, future) => (Exception, s, future)
      end
    else (Exception, s, future).

End SimpleATTester.

(** ** [PerformanceTester.send_at_command] ([performance_test.py])

    The third component of the result, the elapsed time, is in milliseconds
    of the modelled clock. *)

Module PerformanceTester.

Fixpoint response_loop (start_time command_start timeout : Z)
    (response_lines : list pystr) (future : list tick) (s : state)
    : loop_exit (bool * pystr * Z) * state * list tick :=
  match future with
  | [] => (Expired response_lines, s, [])
  | tk :: future' =>
    let s := arrive tk s in
    if now s - command_start <? 1000 * timeout then
      if link_up s then
        if 0 <? Z.of_nat (List.length (rxbuf s)) then
          let (raw, rest) := readline (rxbuf s) in
          let s := set_rxbuf rest s in
          let line := strip (Utf8.decode raw) in
          match line with
          | [] => response_loop start_time command_start timeout
                    response_lines future' s
          | _ :: _ =>
            let s := logging (Print_Response line) s in
            let response_lines := response_lines ++ [line] in
            if str_in line terminal_tokens then
              let end_time := now s in
              let execution_time := end_time - start_time in
              let success := str_in line success_tokens in
              (Returned (success, join newline response_lines,
                         execution_time), s, future')
            else response_loop start_time command_start timeout
                   response_lines future' s
          end
        else response_loop start_time command_start timeout
               response_lines future' s
      else (Raised, s, future')
    else (Expired response_lines, s, future')
  end.

Definition send_at_command (command : string) (extended_timeout : option Z)
    (s : state) (future : list tick)
    : outcome (bool * pystr * Z) * state * list tick :=
  if negb (connected s) then
    (Value (false, lit "Not connected", 0), s, future)
  else
    let timeout := py_or extended_timeout (self_timeout s) in
    let s := logging (Print_Sending command) s in
    let start_time := now s in
    if link_up s then
      let s := write (list_byte_of_string command ++ [x0d; x0a]) s in
      let response_lines := [] in
      let command_start := now s in
      match response_loop start_time command_start timeout response_lines
                          future s with
      | (Returned v, s, future) => (Value v, s, future)
      | (Expired response_lines, s, future) =>
        let end_time := now s in
        let execution_time := end_time - start_time in
        let response_text :=
          match response_lines with
          | [] => lit "TIMEOUT"
          | _ :: _ => join newline response_lines
          end in
        (Value (false, response_text, execution_time), s, future)
      | (Raised, s, future) => (Exception, s, future)
      end
    else (Exception, s, future).

End PerformanceTester.

(** ** The regular expressions of the marker extraction

    The three patterns of the source, [\+LEN:(\d+),], [\+POST:(\d+),] and
    [File saved \((\d+) bytes\)], have one shape: a literal, a greedy run of
    decimal digits that is the captured group, and a literal that starts with
    a character that is no digit.  For this shape backtracking never succeeds
    where the greedy attempt fails, so a match at a position is: the first
    literal, the longest run of digits, one at least, and the second
    literal. *)

Module Re.

(** The code points of the digit zero of every Unicode decimal digit range
    (general category Nd), which is what [\d] matches on [str] and what
    [int] reads. *)
Definition nd_zeros : list Z :=
  [48; 1632; 1776; 1984; 2406; 2534; 2662; 2790; 2918; 3046; 3174; 3302;
   3430; 3558; 3664; 3792; 3872; 4160; 4240; 6112; 6160; 6470; 6608; 6784;
   6800; 6992; 7088; 7232; 7248; 42528; 43216; 43264; 43472; 43504; 43600;
   44016; 65296; 66720; 68912; 69734; 69872; 69942; 70096; 70384; 70736;
   70864; 71248; 71360; 71472; 71904; 72016; 72784; 73040; 73120; 92768;
   92864; 93008; 120782; 120792; 120802; 120812; 120822; 123200; 123632;
   125264; 130032].

Definition is_digit (c : Z) : bool :=
  existsb (fun z => (z <=? c) && (c <? z + 10)) nd_zeros.

(** The value of a decimal digit. *)
Definition digit_value (c : Z) : Z :=
  match find (fun z => (z <=? c) && (c <? z + 10)) nd_zeros with
  | Some z => c - z
  | None => 0
  end.

(** [int(s)] on a run of decimal digits. *)
Definition int (s : pystr) : Z :=
  fold_left (fun acc c => 10 * acc + digit_value c) s 0.

(** [s] without the prefix [p], when it has it. *)
Fixpoint strip_prefix (p s : pystr) : option pystr :=
  match p, s with
  | [], _ => Some s
  | c :: p', d :: s' => if c =? d then strip_prefix p' s' else None
  | _ :: _, [] => None
  end.

(** The longest run of digits at the start of [s], and what follows. *)
Fixpoint digits (s : pystr) : pystr * pystr :=
  match s with
  | c :: s' =>
    if is_digit c then let (ds, r) := digits s' in (c :: ds, r)
    else ([], s)
  | [] => ([], [])
  end.

(** A match of [pre(\d+)suf] at the start of [s]: the group and the length
    of the match. *)
Definition match_at (pre suf s : pystr) : option (pystr * nat) :=
  match strip_prefix pre s with
  | Some r =>
    match digits r with
    | ((_ :: _) as ds, r') =>
      match strip_prefix suf r' with
      | Some _ =>
        Some (ds, (List.length pre + List.length ds + List.length suf)%nat)
      | None => None
      end
    | ([], _) => None
    end
  | None => None
  end.

(** [re.search(pattern, s)]: the group of the leftmost match. *)
Fixpoint search (pre suf s : pystr) : option pystr :=
  match match_at pre suf s with
  | Some (g, _) => Some g
  | None =>
    match s with
    | [] => None
    | _ :: s' => search pre suf s'
    end
  end.

(** [re.findall(pattern, s)]: the groups of the matches that do not overlap,
    left to right; [skip] characters still belong to the previous match. *)
Fixpoint findall_from (pre suf : pystr) (skip : nat) (s : pystr)
    : list pystr :=
  match s with
  | [] => []
  | _ :: s' =>
    match skip with
    | S k => findall_from pre suf k s'
    | O =>
      match match_at pre suf s with
      | Some (g, n) => g :: findall_from pre suf (Nat.pred n) s'
      | None => findall_from pre suf 0 s'
      end
    end
  end.

Definition findall (pre suf s : pystr) : list pystr :=
  findall_from pre suf 0 s.

(** [s.count(sub)] for a non-empty [sub]: occurrences that do not overlap. *)
Fixpoint count_from (sub : pystr) (skip : nat) (s : pystr) : Z :=
  match s with
  | [] => 0
  | _ :: s' =>
    match skip with
    | S k => count_from sub k s'
    | O =>
      match strip_prefix sub s with
      | Some _ => 1 + count_from sub (Nat.pred (List.length sub)) s'
      | None => count_from sub 0 s'
      end
    end
  end.

Definition count (sub s : pystr) : Z := count_from sub 0 s.


End Re.

(** ** The download frame markers *)

Module DownloadFrame.

Definition len_pattern (text : pystr) : option pystr :=
  Re.search (lit "+LEN:") (lit ",") text.
Definition post_pattern (text : pystr) : list pystr :=
  Re.findall (lit "+POST:") (lit ",") text.

(** [sum(int(match) for match in post_matches)]. *)
Definition sum (l : list Z) : Z := fold_left Z.add l 0.

(** The extraction of [test_response_format_len_post_chunks]
    ([test_atbn_spec_compliance.py]) from the lines of a response. *)
Definition expected_len (response : list pystr) : option Z :=
  option_map Re.int (len_pattern (join newline response)).

Definition post_sizes (response : list pystr) : list Z :=
  map Re.int (post_pattern (join newline response)).

Definition total_post_bytes (response : list pystr) : Z :=
  sum (post_sizes response).

(** What the test makes of a response: [True] exactly when the command
    succeeded and a [+LEN:] marker is found; the chunk markers are read only
    then. *)
Definition test_response_format_len_post_chunks (wifi_connected : bool)
    (result : bool * list pystr) : bool :=
  if negb wifi_connected then false
  else
    let (success, response) := result in
    if success then
      match expected_len response with
      | Some _ => true
      | None => false
      end
    else false.

(** The [stats] dictionary of [PerformanceTester.extract_download_stats]
    ([performance_test.py]); a key that is absent is [None]. *)
Record stats := mkStats {
  total_bytes : option Z;
  saved_bytes : option Z;
  chunks_received : option Z
}.

Definition extract_download_stats (response : pystr) : stats :=
  let len_match := Re.search (lit "+LEN:") (lit ",") response in
  let saved_match :=
    Re.search (lit "File saved (") (lit " bytes)") response in
  let post_chunks := Re.count (lit "+POST:") response in
  mkStats (option_map Re.int len_match) (option_map Re.int saved_match)
          (if 0 <? post_chunks then Some post_chunks else None).

End DownloadFrame.

(** ** The vocabulary of the properties *)

Module Shapes.
Import Utf8.

(** A line that is collected without ending the collection. *)
Definition passes (e : bool) (l : pystr) : Prop :=
  l <> [] /\ stops e l = false.

(** The status returned at a stopping line. *)
Definition verdict (e : bool) (t : pystr) : bool :=
  if e && str_eqb t prompt then true else str_in t success_tokens.

(** How the loop is left after receiving the lines [rx], starting from the
    accumulated [lines0]. *)
Inductive collected (e : bool) (lines0 : list pystr)
  : loop_exit (bool * list pystr) -> list pystr -> Prop :=
| col_returned pre t :
    Forall (passes e) pre -> t <> [] -> stops e t = true ->
    collected e lines0 (Returned (verdict e t, lines0 ++ pre ++ [t]))
              (pre ++ [t])
| col_expired rx :
    Forall (passes e) rx -> collected e lines0 (Expired (lines0 ++ rx)) rx
| col_raised rx :
    Forall (passes e) rx -> collected e lines0 Raised rx.

(** Every call of [send_command] is one of five transactions, each
    recognisable by what it logs. *)
Inductive transaction (e : bool) (command : string)
  : bool * list pystr -> list record -> Prop :=
| tx_not_established :
    transaction e command (false, []) [Error_NotEstablished]
| tx_link_down :
    transaction e command (false, []) [Error_Sending command]
| tx_stopped pre t :
    Forall (passes e) pre -> t <> [] -> stops e t = true ->
    transaction e command (verdict e t, pre ++ [t])
      (Info_Sent command :: map Info_Received (pre ++ [t]))
| tx_timeout rx :
    Forall (passes e) rx ->
    transaction e command (false, rx)
      (Info_Sent command :: map Info_Received rx
         ++ [Warning_Timeout command])
| tx_broken rx :
    Forall (passes e) rx ->
    transaction e command (false, [])
      (Info_Sent command :: map Info_Received rx
         ++ [Error_Sending command]).

(** A log that ends with the record [r]. *)
Definition ends_with (r : record) (l : list record) : Prop :=
  exists l0, l = l0 ++ [r].





End Shapes.
Import Shapes.

(** The same vocabulary for [SimpleATTester.send_at_command], which knows no
    prompt, returns the lines joined into one text and lets exceptions
    through. *)

Module SimpleShapes.

(** How its loop is left after receiving the lines [rx]. *)
Inductive collected (lines0 : list pystr)
  : loop_exit (bool * pystr) -> list pystr -> Prop :=
| col_returned pre t :
    Forall (passes false) pre -> In t terminal_tokens ->
    collected lines0
      (Returned (str_in t success_tokens,
                 join newline (lines0 ++ pre ++ [t])))
      (pre ++ [t])
| col_expired rx :
    Forall (passes false) rx -> collected lines0 (Expired (lines0 ++ rx)) rx
| col_raised rx :
    Forall (passes false) rx -> collected lines0 Raised rx.

(** The text a call returns when its deadline passes. *)
Definition timeout_text (rx : list pystr) : pystr :=
  match rx with
  | [] => lit "TIMEOUT"
  | _ :: _ => join newline rx
  end.

(** Every call is one of five transactions. *)
Inductive transaction (command : string)
  : outcome (bool * pystr) -> list record -> Prop :=
| tx_not_connected :
    transaction command (Value (false, lit "Not connected"))
                [Print_NotConnected]
| tx_link_down :
    transaction command Exception [Print_Sending command]
| tx_stopped pre t :
    Forall (passes false) pre -> In t terminal_tokens ->
    transaction command
      (Value (str_in t success_tokens, join newline (pre ++ [t])))
      (Print_Sending command :: map Print_Response (pre ++ [t]))
| tx_timeout rx :
    Forall (passes false) rx ->
    transaction command (Value (false, timeout_text rx))
      (Print_Sending command :: map Print_Response rx)
| tx_broken rx :
    Forall (passes false) rx ->
    transaction command Exception
      (Print_Sending command :: map Print_Response rx).

End SimpleShapes.

(** ** Worlds used in the examples *)

Module Worlds.

Definition bytes (s : string) : list byte := list_byte_of_string s.
Definition crlf (s : string) : list byte := bytes s ++ [x0d; x0a].

(** A tester with an open, working port, an empty input buffer and a
    ten-second default timeout, at clock 0. *)
Definition fresh : state := mkState true true true [] [] 10 0 [].

(** One turn every 100 ms from [t0] on, each delivering the next chunk. *)
Fixpoint deliver (t0 : Z) (chunks : list (list byte)) : list tick :=
  match chunks with
  | [] => []
  | c :: cs => mkTick t0 c false :: deliver (t0 + 100) cs
  end.

(** The device answers a version query with one line and [OK]. *)
Definition run_gmr :=
  ATBNTester.send_command "AT+GMR" None false fresh
    (deliver 100 [crlf "+GMR line"; crlf "OK"]).


(** The link breaks after one line of the answer. *)
Definition run_unplugged_after_line :=
  ATBNTester.send_command "AT+GMR" None false fresh
    (deliver 100 [crlf "+GMR line"] ++ [mkTick 200 [] true]).

(** The link breaks after two lines of a download. *)
Definition run_unplugged_in_download :=
  ATBNTester.send_command "AT+BNCURL" (Some 30) false fresh
    (deliver 100 [crlf "+LEN:8,"; crlf "+POST:4,abcd"]
       ++ [mkTick 300 [] true]).

(** The device stays silent until the deadline has passed. *)
Definition run_silent :=
  ATBNTester.send_command "AT" None false fresh
    [mkTick 100 [] false; mkTick 10000 [] false].

(** The link breaks before anything is received. *)
Definition run_unplugged :=
  ATBNTester.send_command "AT" None false fresh [mkTick 100 [] true].

(** The device rejects a command. *)
Definition run_rejected :=
  ATBNTester.send_command "AT+FOO" None false fresh
    (deliver 100 [crlf "ERROR"]).

(** Part of an answer arrives, then nothing until the deadline. *)
Definition run_partial :=
  ATBNTester.send_command "AT+GMR" None false fresh
    (deliver 100 [crlf "+GMR line"] ++ [mkTick 10000 [] false]).


(** A slow command: the deadline of ten seconds passes, and the late [OK]
    of the device is in the input buffer when the call gives up. *)
Definition late_answer : list tick :=
  [mkTick 100 [] false; mkTick 10000 (crlf "OK") false].

(** The next command is rejected by the device. *)
Definition rejection : list tick := deliver 10100 [crlf "ERROR"].

Definition perf_slow :=
  PerformanceTester.send_at_command "AT+SLOW" None fresh late_answer.
Definition perf_next :=
  PerformanceTester.send_at_command "AT+FOO" None (snd (fst perf_slow))
    rejection.

Definition simple_slow :=
  SimpleATTester.send_at_command "AT+SLOW" fresh late_answer.
Definition simple_next :=
  SimpleATTester.send_at_command "AT+FOO" (snd (fst simple_slow)) rejection.

Definition atbn_slow :=
  ATBNTester.send_command "AT+SLOW" None false fresh late_answer.
Definition atbn_next :=
  ATBNTester.send_command "AT+FOO" None false (snd (fst atbn_slow))
    rejection.

End Worlds.
Import Worlds.

(** ** Sessions: the data phase, the environment set-up and the test cases

    The functions below call [send_command] and log messages of their own.
    The log of the engine has no record for these, so a session keeps them
    beside the port as [notes], each with the number of records the log
    held when it was written. *)

Module Session.

(** [sub in s] on strings. *)
Fixpoint contains (sub s : pystr) : bool :=
  match Re.strip_prefix sub s with
  | Some _ => true
  | None =>
    match s with
    | [] => false
    | _ :: s' => contains sub s'
    end
  end.

(** [any(sub in line for line in response)]. *)
Definition any_contains (sub : pystr) (response : list pystr) : bool :=
  existsb (contains sub) response.

Inductive note :=
| Info (msg : string)             (* logger.info of a fixed text *)
| Warning (msg : string)          (* logger.warning of a fixed text *)
| Error (msg : string)            (* logger.error of a fixed text *)
| Info_SentBytes (n : Z)          (* f"Sent {len(data)} bytes of data" *)
| Error_SendingData               (* f"Error sending data: {e}" *)
| Info_SendOkFound (b : bool).    (* f"SEND OK confirmation found: {b}" *)

Record session := mkSession {
  port : state;
  notes : list (nat * note)
}.

(** A computation in a session and the script of its turns. *)
Definition world : Type := session * list tick.
Definition M (A : Type) : Type := world -> A * world.

Definition ret {A : Type} (a : A) : M A := fun w => (a, w).

Definition bind {A B : Type} (m : M A) (k : A -> M B) : M B :=
  fun w => let (a, w') := m w in k a w'.

Declare Scope session_scope.
Delimit Scope session_scope with session.
Notation "x <- m ;; k" := (bind m (fun x => k))
  (at level 61, m at next level, right associativity) : session_scope.
Notation "' p <- m ;; k" := (bind m (fun x => let 'p := x in k))
  (at level 61, p pattern, m at next level, right associativity)
  : session_scope.
Notation "m ;; k" := (bind m (fun _ => k))
  (at level 61, right associativity) : session_scope.
Local Open Scope session_scope.

Definition get_port : M state := fun w => (port (fst w), w).

Definition update (f : state -> state) : M unit :=
  fun w => (tt, (mkSession (f (port (fst w))) (notes (fst w)), snd w)).

Definition take_note (m : note) : M unit :=
  fun w =>
    (tt, (mkSession (port (fst w))
            (notes (fst w) ++ [(List.length (log (port (fst w))), m)]),
          snd w)).

(** A call on the port that consumes turns of the script. *)
Definition on_port {A : Type}
    (f : state -> list tick -> A * state * list tick) : M A :=
  fun w =>
    let '(a, s, future) := f (port (fst w)) (snd w) in
    (a, (mkSession s (notes (fst w)), future)).

Definition send_command (command : string) (timeout : option Z)
    (expect_data_prompt : bool) : M (bool * list pystr) :=
  on_port (ATBNTester.send_command command timeout expect_data_prompt).

(** The [while] loop of [ATBNTester.send_data]. *)
Fixpoint data_loop (start_time data_timeout : Z)
    (response_lines : list pystr) (future : list tick) (s : state)
    : loop_exit (bool * list pystr) * state * list tick :=
  match future with
  | [] => (Expired response_lines, s, [])
  | tk :: future' =>
    let s := arrive tk s in
    if now s - start_time <? 1000 * data_timeout then
      if link_up s then
        if 0 <? Z.of_nat (List.length (rxbuf s)) then
          let (raw, rest) := readline (rxbuf s) in
          let s := set_rxbuf rest s in
          let line := strip (Utf8.decode raw) in
          match line with
          | [] => data_loop start_time data_timeout response_lines future' s
          | _ :: _ =>
            let response_lines := response_lines ++ [line] in
            let s := logging (Info_Received line) s in
            if str_in line terminal_tokens then
              let success := str_in line success_tokens in
              (Returned (success, response_lines), s, future')
            else data_loop start_time data_timeout response_lines future' s
          end
        else data_loop start_time data_timeout response_lines future' s
      else (Raised, s, future')
    else (Expired response_lines, s, future')
  end.

(** [ATBNTester.send_data] ([test_atbn_comprehensive.py]). *)
Definition send_data (data : list byte) (timeout : option Z)
    : M (bool * list pystr) :=
  s <- get_port ;;
  if negb (connected s) || negb (is_open s) then
    update (logging Error_NotEstablished) ;;
    ret (false, [])
  else
    let data_timeout := py_or timeout (self_timeout s) in
    if link_up s then
      update (write data) ;;
      take_note (Info_SentBytes (Z.of_nat (List.length data))) ;;
      let response_lines := [] in
      s <- get_port ;;
      let start_time := now s in
      ex <- on_port (fun s future =>
                       data_loop start_time data_timeout response_lines
                                 future s) ;;
      match ex with
      | Returned v => ret v
      | Expired response_lines =>
        take_note (Warning "Data send timeout") ;;
        ret (false, response_lines)
      | Raised =>
        take_note Error_SendingData ;;
        ret (false, [])
      end
    else
      take_note Error_SendingData ;;
      ret (false, []).

(** A port on which a command can be sent. *)
Definition usable (s : state) : bool :=
  connected s && is_open s && link_up s.

(** The bytes [send_command] writes for a command. *)
Definition wire (command : string) : list byte :=
  list_byte_of_string command ++ [x0d; x0a].

Local Open Scope string_scope.

(** The double quote and the f-strings that build commands. *)
Definition dq : string := String (ascii_of_nat 34) EmptyString.

Definition cat (parts : list string) : string :=
  fold_right String.append EmptyString parts.

(** [f'AT+CWJAP="{ssid}","{password}"']. *)
Definition cwjap_command (ssid password : string) : string :=
  cat ["AT+CWJAP="; dq; ssid; dq; ","; dq; password; dq].

(** [f'AT+BNCURL="GET","{url}"']. *)
Definition get_command (url : string) : string :=
  cat ["AT+BNCURL="; dq; "GET"; dq; ","; dq; url; dq].

(** [f'AT+BNCURL="POST","{url}","-du","8"']. *)
Definition post_command (url : string) : string :=
  cat ["AT+BNCURL="; dq; "POST"; dq; ","; dq; url; dq; ",";
       dq; "-du"; dq; ","; dq; "8"; dq].

(** [f'AT+BNCURL="POST","{url}","-du","18","-H","Content-Type: ..."']. *)
Definition post_text_command (url : string) : string :=
  cat ["AT+BNCURL="; dq; "POST"; dq; ","; dq; url; dq; ",";
       dq; "-du"; dq; ","; dq; "18"; dq; ","; dq; "-H"; dq; ",";
       dq; "Content-Type: text/plain; charset=UTF-8"; dq].

(** [ATBNTester.setup_wifi], with the attributes [self.wifi_ssid] and
    [self.wifi_password] as arguments. *)
Definition setup_wifi (wifi_ssid wifi_password : string) : M bool :=
  take_note (Info "Setting up WiFi connection...") ;;
  ' (success, _) <- send_command "AT+CWMODE=1" None false ;;
  if negb success then
    take_note (Error "Failed to set WiFi mode") ;;
    ret false
  else
    let wifi_cmd := cwjap_command wifi_ssid wifi_password in
    ' (success, response) <- send_command wifi_cmd (Some 30) false ;;
    if negb success then
      take_note (Error "Failed to connect to WiFi") ;;
      ret false
    else
      ' (success, ip_response) <- send_command "AT+CIFSR" None false ;;
      if success && any_contains (lit "STAIP") ip_response then
        take_note (Info "WiFi connection successful") ;;
        ret true
      else ret false.

(** [ATBNTester.test_basic_connectivity]. *)
Definition test_basic_connectivity : M bool :=
  take_note (Info "Testing basic connectivity...") ;;
  ' (success, response) <- send_command "AT" None false ;;
  ret (success && any_contains (lit "OK") response).

(** How a test case that may call [pytest.skip] ends. *)
Inductive test_end :=
| Skipped                  (* [pytest.skip] raised *)
| Finished (passed : bool).

(** [ATBNTester.test_get_http_to_uart], with [self.test_urls["http_get"]]
    as argument. *)
Definition test_get_http_to_uart (wifi_connected : bool) (http_get : string)
    : M test_end :=
  if negb wifi_connected then ret Skipped
  else
    take_note (Info "Testing GET HTTP to UART...") ;;
    let cmd := get_command http_get in
    ' (success, response) <- send_command cmd (Some 30) false ;;
    if success then
      let has_len := any_contains (lit "+LEN:") response in
      let has_send_ok := any_contains (lit "SEND OK") response in
      ret (Finished (has_len && has_send_ok))
    else ret (Finished false).

(** [ATBNTester.test_post_uart_to_uart], with [self.test_urls["post"]] as
    argument. *)
Definition test_post_uart_to_uart (wifi_connected : bool) (post : string)
    : M test_end :=
  if negb wifi_connected then ret Skipped
  else
    take_note (Info "Testing POST UART to UART...") ;;
    let cmd := post_command post in
    ' (success, response) <- send_command cmd None true ;;
    if success && any_contains (lit ">") response then
      let test_data := list_byte_of_string "abcdefgh" in
      ' (success, final_response) <- send_data test_data (Some 30) ;;
      if success then
        let has_len := any_contains (lit "+LEN:") final_response in
        let has_send_ok := any_contains (lit "SEND OK") final_response in
        ret (Finished (has_len && has_send_ok))
      else ret (Finished false)
    else ret (Finished false).

(** [ATBNTester.test_post_with_content_type]. *)
Definition test_post_with_content_type (wifi_connected : bool)
    (post : string) : M test_end :=
  if negb wifi_connected then ret Skipped
  else
    take_note (Info "Testing POST with Content-Type...") ;;
    let cmd := post_text_command post in
    ' (success, response) <- send_command cmd None true ;;
    if success && any_contains (lit ">") response then
      let test_data := list_byte_of_string "hello-from-esp32!!" in
      ' (success, final_response) <- send_data test_data (Some 30) ;;
      ret (Finished success)
    else ret (Finished false).

(** [ATBNSpecComplianceTester.test_send_ok_confirmation]
    ([test_atbn_spec_compliance.py]), with [self.test_urls["json"]] as
    argument. *)
Definition test_send_ok_confirmation (wifi_connected : bool) (json : string)
    : M bool :=
  if negb wifi_connected then ret false
  else
    take_note (Info "Testing SEND OK confirmation after download...") ;;
    let cmd := get_command json in
    ' (success, response) <- send_command cmd (Some 30) false ;;
    if success then
      let response_text := join newline response in
      let has_send_ok := contains (lit "SEND OK") response_text in
      take_note (Info_SendOkFound has_send_ok) ;;
      ret has_send_ok
    else ret false.

End Session.
Import Session.

(** ** More vocabulary *)

Module Terms.

(** The result of [PerformanceTester.send_at_command] without its elapsed
    time. *)
Definition drop_time (o : outcome (bool * pystr * Z))
    : outcome (bool * pystr) :=
  match o with
  | Value (ok, text, _) => Value (ok, text)
  | Exception => Exception
  end.

Definition drop_exit_time (ex : loop_exit (bool * pystr * Z))
    : loop_exit (bool * pystr) :=
  match ex with
  | Returned (ok, text, _) => Returned (ok, text)
  | Expired ls => Expired ls
  | Raised => Raised
  end.

(** None of the first [k] characters of [s] is [c0]. *)
Definition clear_of_tag (c0 : Z) (k : nat) (s : pystr) : Prop :=
  Forall (fun c => c <> c0) (firstn k s).

End Terms.
Import Terms.

(** ** Sessions used in the examples *)

Module Scenes.

(** A session on a fresh tester. *)
Definition opening : session := mkSession fresh [].

(** The device accepts eight bytes of data and reports the transfer. *)
Definition upload_answer : list tick :=
  deliver 100 [crlf "+LEN:2,"; crlf "+POST:2,{}"; crlf "SEND OK"].

Definition run_send_data :=
  send_data (list_byte_of_string "abcdefgh") (Some 30)
    (opening, upload_answer).

(** A download that the device confirms with [SEND OK]. *)
Definition download_script : list tick :=
  deliver 100 [crlf "+LEN:2,"; crlf "+POST:2,{}"; crlf "SEND OK"].

(** The device answers a POST with a page and [OK], and never prompts. *)
Definition page_script : list tick :=
  deliver 100 [crlf "<html>"; crlf "OK"].

(** The device prompts for the body of a POST and confirms it. *)
Definition post_script : list tick :=
  deliver 100 [crlf ">"; crlf "SEND OK"].

Definition run_post_text :=
  test_post_with_content_type true "http://x/p" (opening, post_script).

(** The access point is joined and the station has an address. *)
Definition wifi_script : list tick :=
  deliver 100 [crlf "OK"; crlf "WIFI GOT IP"; crlf "OK";
               crlf "+CIFSR:STAIP,1"; crlf "OK"].

End Scenes.
Import Scenes.

(** ** The device's side of a transaction

    The properties below speak of what the device sent, not of what a call
    says it received.  The device sends lines: bytes that hold no line feed,
    followed by a line feed.  A turn of the loop that is within the deadline
    and finds the link up is a clock reading and the lines that arrived
    since the turn before. *)

Module Device.

(** A line on the wire. *)
Definition sent (body : list byte) : list byte := body ++ [x0a].

(** The bytes of a sequence of lines. *)
Definition stream (bodies : list (list byte)) : list byte :=
  flat_map sent bodies.

(** No line feed inside a line. *)
Definition whole (bodies : list (list byte)) : Prop :=
  Forall (fun body => ~ In x0a body) bodies.

(** What [readline().decode('utf-8', errors='ignore').strip()] makes of a
    line of the device. *)
Definition text_of (body : list byte) : pystr :=
  strip (Utf8.decode (sent body)).

Definition nonempty (l : pystr) : bool :=
  match l with [] => false | _ :: _ => true end.

(** The texts of the lines that are not empty after trimming, in order. *)
Definition texts_of (bodies : list (list byte)) : list pystr :=
  filter nonempty (map text_of bodies).

(** A turn: the clock and the lines that arrived. *)
Definition turn (p : Z * list (list byte)) : tick :=
  mkTick (fst p) (stream (snd p)) false.

Definition turns (B : list (Z * list (list byte))) : list tick :=
  map turn B.

(** Every line that arrives during the turns [B], in order. *)
Definition arrivals (B : list (Z * list (list byte)))
    : list (list byte) :=
  flat_map snd B.

(** Every turn of [B] is within [limit] seconds of [start] and brings whole
    lines. *)
Definition timely (start limit : Z) (B : list (Z * list (list byte)))
    : Prop :=
  Forall (fun p => fst p - start < 1000 * limit /\ whole (snd p)) B.

(** Nothing arrives during the turns [B]. *)
Definition idle (B : list (Z * list (list byte))) : Prop :=
  Forall (fun p => snd p = []) B.

(** The deadline has passed when the script [rest] begins: it is empty, or
    its first clock reading is [limit] seconds after [start] or later. *)
Definition late (start limit : Z) (rest : list tick) : Prop :=
  match rest with
  | [] => True
  | tk :: _ => 1000 * limit <= t_clock tk - start
  end.

(** The link breaks within the deadline at the start of [rest]. *)
Definition breaks (start limit : Z) (rest : list tick) : Prop :=
  match rest with
  | [] => False
  | tk :: _ => t_clock tk - start < 1000 * limit /\ t_drop tk = true
  end.

(** A text that is none of the terminal tokens and, when the prompt is
    expected, not the prompt. *)
Definition goes_on (e : bool) (l : pystr) : Prop :=
  ~ In l terminal_tokens /\ (e = true -> l <> prompt).

(** A text that ends the collection. *)
Definition ends (e : bool) (l : pystr) : Prop :=
  In l terminal_tokens \/ (e = true /\ l = prompt).

(** A state with another log. *)
Definition relog (l : list record) (s : state) : state :=
  mkState (connected s) (is_open s) (link_up s) (rxbuf s) (txlog s)
          (self_timeout s) (now s) l.

(** The exit of [SimpleATTester]'s loop that corresponds to an exit of
    [ATBNTester]'s: the lines are returned joined. *)
Definition joined (ex : loop_exit (bool * list pystr))
    : loop_exit (bool * pystr) :=
  match ex with
  | Returned (ok, ls) => Returned (ok, join newline ls)
  | Expired ls => Expired ls
  | Raised => Raised
  end.

End Device.
Import Device.

(** ** Answers of the device used in the examples *)

Module Answers.

(** A line of the device without its line feed: the text and a carriage
    return. *)
Definition cr (s : string) : list byte := bytes s ++ [x0d].

(** The device answers a version query; a line that only resembles a token
    comes before the [OK], and a line the call never reads comes after. *)
Definition gmr_answer : list (Z * list (list byte)) :=
  [(100, [cr "+GMR line"; cr "OKAY"; cr "OK"; cr "ERROR"])].

(** Turns in which nothing arrives. *)
Definition quiet : list (Z * list (list byte)) :=
  [(200, []); (300, []); (400, []); (500, [])].

(** One line of an answer. *)
Definition gmr_part : list (Z * list (list byte)) :=
  [(100, [cr "+GMR line"])].

(** The link breaks at 600 ms. *)
Definition unplugged : list tick := [mkTick 600 [] true].

(** A tester whose buffer holds a line of an earlier answer. *)
Definition stale_line : state :=
  mkState true true true (stream [cr "busy p..."]) [] 10 0 [].

End Answers.
Import Answers.

(** * Properties *)

(** ** Strings *)

Section StringFacts.

Lemma str_eqb_eq (a b : pystr) : str_eqb a b = true <-> a = b.
Proof.
  revert b; induction a as [|x a IH]; intros [|y b]; simpl;
    try (split; [discriminate | discriminate]); try tauto.
  rewrite andb_true_iff, Z.eqb_eq, IH.
  split; [intros [-> ->]; reflexivity | intros H; inversion H; auto].
Qed.

Lemma str_eqb_refl (a : pystr) : str_eqb a a = true.
Proof. apply str_eqb_eq; reflexivity. Qed.

Lemma str_in_In (x : pystr) (l : list pystr) :
  str_in x l = true <-> In x l.
Proof.
  unfold str_in; rewrite existsb_exists; split.
  - intros [y [Hy He]]; apply str_eqb_eq in He; subst; assumption.
  - intros H; exists x; split; [assumption | apply str_eqb_refl].
Qed.

Lemma terminal_cases (t : pystr) :
  In t terminal_tokens ->
  t = lit "OK" \/ t = lit "ERROR" \/ t = lit "SEND OK" \/ t = lit "SEND FAIL".
Proof.
  unfold terminal_tokens; simpl; intuition.
Qed.

Lemma terminal_not_prompt (t : pystr) :
  In t terminal_tokens -> str_eqb t prompt = false.
Proof.
  intros H; apply terminal_cases in H.
  destruct H as [-> | [-> | [-> | ->]]]; reflexivity.
Qed.

Lemma terminal_stops (e : bool) (t : pystr) :
  In t terminal_tokens -> stops e t = true.
Proof.
  intros H; unfold stops; apply str_in_In in H; rewrite H.
  apply orb_true_r.
Qed.

(** A stopping line can only be the last of a list whose other lines do not
    stop. *)
Lemma last_stopper (P : pystr -> Prop) (pre' : list pystr) :
  forall (pre post : list pystr) (t t' : pystr),
    Forall P pre' -> ~ P t ->
    pre ++ t :: post = pre' ++ [t'] ->
    post = [] /\ pre = pre' /\ t = t'.
Proof.
  induction pre' as [|x pre' IH]; intros pre post t t' HF Ht E.
  - destruct pre as [|y pre]; simpl in E.
    + inversion E; auto.
    + inversion E as [[E1 E2]]; destruct pre; discriminate.
  - inversion HF as [|? ? Hx HF']; subst.
    destruct pre as [|y pre]; simpl in E; inversion E; subst.
    + contradiction.
    + destruct (IH pre post t t' HF' Ht H1) as [-> [-> ->]]; auto.
Qed.

Lemma no_stopper (P : pystr -> Prop) (rx pre post : list pystr) (t : pystr) :
  Forall P rx -> ~ P t -> rx = pre ++ t :: post -> False.
Proof.
  intros HF Ht ->; apply Forall_app in HF; destruct HF as [_ HF].
  inversion HF; contradiction.
Qed.

End StringFacts.

(** ** The shape of every [send_command] transaction *)

Module Engine.

Lemma collected_cons e lines0 line ex rx :
  passes e line ->
  collected e (lines0 ++ [line]) ex rx ->
  collected e lines0 ex (line :: rx).
Proof.
  intros Hp H; inversion H; subst.
  - rewrite <- app_assoc. simpl.
    change (line :: pre ++ [t]) with ((line :: pre) ++ [t]).
    constructor; auto.
  - rewrite <- app_assoc. simpl. constructor; auto.
  - constructor; auto.
Qed.

Lemma log_logging r s : log (logging r s) = log s ++ [r].
Proof. reflexivity. Qed.
Lemma log_set_rxbuf b s : log (set_rxbuf b s) = log s.
Proof. reflexivity. Qed.
Lemma log_arrive tk s : log (arrive tk s) = log s.
Proof. reflexivity. Qed.
Lemma log_write d s : log (write d s) = log s.
Proof. reflexivity. Qed.

Lemma col_expired0 e lines : collected e lines (Expired lines) [].
Proof.
  pattern lines at 2; rewrite <- (app_nil_r lines).
  constructor; constructor.
Qed.

Lemma col_returned0 e lines t :
  t <> [] -> stops e t = true ->
  collected e lines (Returned (verdict e t, lines ++ [t])) [t].
Proof. intros; apply (col_returned e lines [] t); auto. Qed.

Local Opaque str_in str_eqb.

Lemma collect_collected e st tmo :
  forall future lines s ex s' fut',
    ATBNTester.collect e st tmo lines future s = (ex, s', fut') ->
    exists rx,
      log s' = log s ++ map Info_Received rx /\ collected e lines ex rx.
Proof.
  induction future as [|tk future IH]; intros lines s ex s' fut' H.
  - injection H as <- <- <-. exists []. rewrite app_nil_r.
    split; [reflexivity | apply col_expired0].
  - cbn [ATBNTester.collect] in H.
    rewrite <- (log_arrive tk s).
    destruct (now (arrive tk s) - st <? 1000 * tmo);
      [| injection H as <- <- <-; exists []; rewrite app_nil_r;
         split; [reflexivity | apply col_expired0]].
    destruct (link_up (arrive tk s));
      [| injection H as <- <- <-; exists []; rewrite app_nil_r;
         split; [reflexivity | constructor; constructor]].
    destruct (0 <? Z.of_nat (List.length (rxbuf (arrive tk s))));
      [| apply IH in H; exact H].
    destruct (readline (rxbuf (arrive tk s))) as [raw rest].
    rewrite <- (log_set_rxbuf rest (arrive tk s)).
    destruct (strip (Utf8.decode raw)) as [|c line'] eqn:El.
    + apply IH in H. exact H.
    + set (line := c :: line') in *.
      assert (Hne : line <> []) by discriminate.
      destruct (e && str_eqb line prompt) eqn:Ep.
      * injection H as <- <- <-. exists [line].
        split; [apply log_logging |].
        replace true with (verdict e line)
          by (unfold verdict; rewrite Ep; reflexivity).
        apply col_returned0; auto.
        unfold stops; rewrite Ep; reflexivity.
      * destruct (str_in line terminal_tokens) eqn:Et.
        -- injection H as <- <- <-. exists [line].
           split; [apply log_logging |].
           replace (str_in line success_tokens) with (verdict e line)
             by (unfold verdict; rewrite Ep; reflexivity).
           apply col_returned0; auto.
           unfold stops; rewrite Et; apply orb_true_r.
        -- apply IH in H. destruct H as [rx [Hl Hc]].
           exists (line :: rx). rewrite log_logging in Hl.
           rewrite Hl, <- app_assoc. split; [reflexivity |].
           apply collected_cons; auto.
           split; auto. unfold stops; rewrite Ep, Et; reflexivity.
Qed.


Local Transparent str_in str_eqb.

Lemma since_app (s s' : state) (l : list record) :
  log s' = log s ++ l -> since s s' = l.
Proof.
  intros H; unfold since; rewrite H.
  rewrite skipn_app, skipn_all, Nat.sub_diag; reflexivity.
Qed.

Lemma send_command_transaction command timeout e s future res s' fut' :
  ATBNTester.send_command command timeout e s future = (res, s', fut') ->
  transaction e command res (since s s').
Proof.
  unfold ATBNTester.send_command; intros H.
  destruct (negb (connected s) || negb (is_open s)).
  { injection H as <- <- <-.
    rewrite (since_app _ _ [Error_NotEstablished]) by apply log_logging.
    constructor. }
  destruct (link_up s).
  2:{ injection H as <- <- <-.
      rewrite (since_app _ _ [Error_Sending command]) by apply log_logging.
      constructor. }
  match type of H with
  | context [ATBNTester.collect ?a ?b ?c ?d ?f ?g] =>
    destruct (ATBNTester.collect a b c d f g) as [[ex s1] f1] eqn:E
  end.
  apply collect_collected in E. destruct E as [rx [Hl Hc]].
  rewrite log_logging, log_write in Hl.
  change (log (reset_input_buffer s)) with (log s) in Hl.
  inversion Hc; subst; injection H as <- <- <-.
  - rewrite (since_app _ _
      (Info_Sent command :: map Info_Received (pre ++ [t]))).
    + constructor; auto.
    + rewrite Hl, <- app_assoc; reflexivity.
  - rewrite (since_app _ _
      (Info_Sent command :: map Info_Received rx
         ++ [Warning_Timeout command])).
    + constructor; auto.
    + rewrite log_logging, Hl, <- !app_assoc; reflexivity.
  - rewrite (since_app _ _
      (Info_Sent command :: map Info_Received rx
         ++ [Error_Sending command])).
    + constructor; auto.
    + rewrite log_logging, Hl, <- !app_assoc; reflexivity.
Qed.

Lemma ends_with_inj (r r' : record) (l0 l : list record) :
  l = l0 ++ [r] -> ends_with r' l -> r = r'.
Proof.
  intros -> [l1 H]. apply app_inj_tail in H. apply H.
Qed.


Lemma received_Info (rx : list pystr) (l : list record) :
  received (map Info_Received rx ++ l) = rx ++ received l.
Proof. induction rx; simpl; congruence. Qed.

Lemma received_Print (rx : list pystr) (l : list record) :
  received (map Print_Response rx ++ l) = rx ++ received l.
Proof. induction rx; simpl; congruence. Qed.

Lemma received_Info0 (rx : list pystr) :
  received (map Info_Received rx) = rx.
Proof. induction rx; simpl; congruence. Qed.

Lemma received_Info0' (rx : list pystr) :
  received (map Print_Response rx) = rx.
Proof. induction rx; simpl; congruence. Qed.

(** The lines a transaction hears, read off its log. *)
Lemma transaction_heard e command res new :
  transaction e command res new ->
  (exists pre t, received new = pre ++ [t] /\ Forall (passes e) pre /\
      t <> [] /\ stops e t = true /\ res = (verdict e t, pre ++ [t]) /\
      new = Info_Sent command :: map Info_Received (pre ++ [t]))
  \/ (Forall (passes e) (received new) /\
      ((res = (false, received new) /\
        exists l, new = l ++ [Warning_Timeout command])
       \/ (res = (false, []) /\ exists l, new = l ++ [Error_Sending command])
       \/ (res = (false, []) /\ new = [Error_NotEstablished]))).
Proof.
  intros H; inversion H; subst; simpl.
  - right; split; [constructor | right; right; split; reflexivity].
  - right; split; [constructor | right; left; split; [reflexivity |]].
    exists []; reflexivity.
  - left; exists pre, t.
    rewrite received_Info0. repeat split; auto.
  - right; rewrite received_Info; simpl; rewrite app_nil_r.
    split; [assumption | left; split; [reflexivity |]].
    exists (Info_Sent command :: map Info_Received rx); reflexivity.
  - right; rewrite received_Info; simpl; rewrite app_nil_r.
    split; [assumption | right; left; split; [reflexivity |]].
    exists (Info_Sent command :: map Info_Received rx); reflexivity.
Qed.

(** The five transactions, with everything a caller or a reader of the log
    can tell about each. *)
Lemma transaction_cases e command ok lines new :
  transaction e command (ok, lines) new ->
  Forall (fun l => l <> []) (received new) /\
  ((exists pre t,
       received new = pre ++ [t] /\ Forall (passes e) pre /\
       stops e t = true /\ ok = verdict e t /\ lines = received new /\
       ends_with (Info_Received t) new)
   \/ (Forall (passes e) (received new) /\ ok = false /\
       lines = received new /\ ends_with (Warning_Timeout command) new)
   \/ (Forall (passes e) (received new) /\ ok = false /\ lines = [] /\
       ends_with (Error_Sending command) new)
   \/ (received new = [] /\ ok = false /\ lines = [] /\
       new = [Error_NotEstablished])).
Proof.
  assert (P : forall rx, Forall (passes e) rx -> Forall (fun l => l <> []) rx).
  { intros rx HF; eapply Forall_impl; [| exact HF]. intros l [Hl _]; exact Hl. }
  intros H; inversion H; subst; cbn [received];
    rewrite ?received_Info, ?received_Info0; cbn [received];
    rewrite ?app_nil_r.
  - split; [constructor | right; right; right; auto].
  - split; [constructor | right; right; left].
    repeat split; auto. exists []; reflexivity.
  - split.
    + apply Forall_app; split; [apply P; assumption |].
      constructor; [assumption | constructor].
    + left; exists pre, t. repeat split; auto.
      exists (Info_Sent command :: map Info_Received pre).
      rewrite map_app; reflexivity.
  - split; [apply P; assumption | right; left].
    repeat split; auto.
    exists (Info_Sent command :: map Info_Received lines); reflexivity.
  - split; [apply P; assumption | right; right; left].
    repeat split; auto.
    exists (Info_Sent command :: map Info_Received rx); reflexivity.
Qed.

Lemma send_command_cases command timeout e s future ok lines s' fut' :
  ATBNTester.send_command command timeout e s future
    = (ok, lines, s', fut') ->
  Forall (fun l => l <> []) (heard s s') /\
  ((exists pre t,
       heard s s' = pre ++ [t] /\ Forall (passes e) pre /\
       stops e t = true /\ ok = verdict e t /\ lines = heard s s' /\
       ends_with (Info_Received t) (since s s'))
   \/ (Forall (passes e) (heard s s') /\ ok = false /\
       lines = heard s s' /\ ends_with (Warning_Timeout command) (since s s'))
   \/ (Forall (passes e) (heard s s') /\ ok = false /\ lines = [] /\
       ends_with (Error_Sending command) (since s s'))
   \/ (heard s s' = [] /\ ok = false /\ lines = [] /\
       since s s' = [Error_NotEstablished])).
Proof.
  intros H; apply send_command_transaction, transaction_cases in H.
  exact H.
Qed.

End Engine.

(** ** The shape of every [SimpleATTester.send_at_command] call *)

Module SimpleEngine.
Import Engine SimpleShapes.

Lemma simple_collected_cons lines0 line ex rx :
  passes false line ->
  collected (lines0 ++ [line]) ex rx ->
  collected lines0 ex (line :: rx).
Proof.
  intros Hp H; inversion H; subst.
  - rewrite <- app_assoc. simpl.
    change (line :: pre ++ [t]) with ((line :: pre) ++ [t]).
    constructor; auto.
  - rewrite <- app_assoc. simpl. constructor; auto.
  - constructor; auto.
Qed.

Lemma simple_col_expired0 lines : collected lines (Expired lines) [].
Proof.
  pattern lines at 2; rewrite <- (app_nil_r lines).
  constructor; constructor.
Qed.

Local Opaque str_in str_eqb join.

Lemma response_loop_collected st tmo :
  forall future lines s ex s' fut',
    SimpleATTester.response_loop st tmo lines future s = (ex, s', fut') ->
    exists rx,
      log s' = log s ++ map Print_Response rx /\ collected lines ex rx.
Proof.
  induction future as [|tk future IH]; intros lines s ex s' fut' H.
  - injection H as <- <- <-. exists []. rewrite app_nil_r.
    split; [reflexivity | apply simple_col_expired0].
  - cbn [SimpleATTester.response_loop] in H.
    rewrite <- (log_arrive tk s).
    destruct (now (arrive tk s) - st <? 1000 * tmo);
      [| injection H as <- <- <-; exists []; rewrite app_nil_r;
         split; [reflexivity | apply simple_col_expired0]].
    destruct (link_up (arrive tk s));
      [| injection H as <- <- <-; exists []; rewrite app_nil_r;
         split; [reflexivity | constructor; constructor]].
    destruct (0 <? Z.of_nat (List.length (rxbuf (arrive tk s))));
      [| apply IH in H; exact H].
    destruct (readline (rxbuf (arrive tk s))) as [raw rest].
    rewrite <- (log_set_rxbuf rest (arrive tk s)).
    destruct (strip (Utf8.decode raw)) as [|c line'] eqn:El.
    + apply IH in H. exact H.
    + set (line := c :: line') in *.
      assert (Hne : line <> []) by discriminate.
      destruct (str_in line terminal_tokens) eqn:Et.
      * injection H as <- <- <-. exists [line].
        split; [apply log_logging |].
        apply (col_returned lines [] line); [constructor |].
        apply str_in_In; assumption.
      * apply IH in H. destruct H as [rx [Hl Hc]].
        exists (line :: rx). rewrite log_logging in Hl.
        rewrite Hl, <- app_assoc. split; [reflexivity |].
        apply simple_collected_cons; auto.
        split; auto.
Qed.

Local Transparent str_in str_eqb join.

Lemma send_at_command_transaction command s future res s' fut' :
  SimpleATTester.send_at_command command s future = (res, s', fut') ->
  transaction command res (since s s').
Proof.
  unfold SimpleATTester.send_at_command; intros H.
  destruct (negb (connected s)).
  { injection H as <- <- <-.
    rewrite (since_app _ _ [Print_NotConnected]) by apply log_logging.
    constructor. }
  change (link_up (logging (Print_Sending command) s)) with (link_up s) in H.
  destruct (link_up s).
  2:{ injection H as <- <- <-.
      rewrite (since_app _ _ [Print_Sending command]) by apply log_logging.
      constructor. }
  match type of H with
  | context [SimpleATTester.response_loop ?a ?b ?c ?d ?f] =>
    destruct (SimpleATTester.response_loop a b c d f) as [[ex s1] f1] eqn:E
  end.
  apply response_loop_collected in E. destruct E as [rx [Hl Hc]].
  rewrite log_write, log_logging in Hl.
  inversion Hc; subst; injection H as <- <- <-;
    match goal with
    | |- transaction _ _ (since _ _) =>
      rewrite (since_app _ _ (Print_Sending command :: map Print_Response rx))
        by (rewrite Hl, <- app_assoc; reflexivity)
    | |- _ => idtac
    end.
  - rewrite (since_app _ _
      (Print_Sending command :: map Print_Response (pre ++ [t])))
      by (rewrite Hl, <- app_assoc; reflexivity).
    constructor; auto.
  - apply (tx_timeout command rx); auto.
  - constructor; auto.
Qed.

Lemma simple_transaction_heard command res new :
  transaction command res new ->
  (exists pre t, received new = pre ++ [t] /\ Forall (passes false) pre /\
      In t terminal_tokens /\
      res = Value (str_in t success_tokens, join newline (pre ++ [t])))
  \/ (Forall (passes false) (received new) /\
      (res = Exception
       \/ res = Value (false, timeout_text (received new))
       \/ res = Value (false, lit "Not connected"))).
Proof.
  intros H; inversion H; subst; cbn [received];
    rewrite ?received_Info0'.
  - right; split; [constructor | auto].
  - right; split; [constructor | auto].
  - left; exists pre, t; auto.
  - right; auto.
  - right; auto.
Qed.

End SimpleEngine.

(** ** What a transaction makes of the lines the device sent *)

Module Served.
Import Engine.

Lemma code_x0a (b : byte) : code b = 10 <-> b = x0a.
Proof.
  split; [| intros ->; reflexivity].
  intros H. unfold code in H.
  assert (E : Byte.to_N b = Byte.to_N x0a) by (cbn; lia).
  pose proof (Byte.of_to_N b) as Hb. rewrite E, Byte.of_to_N in Hb.
  congruence.
Qed.

Lemma readline_sent (body rest : list byte) :
  ~ In x0a body -> readline (sent body ++ rest) = (sent body, rest).
Proof.
  unfold sent. induction body as [|b body IH]; intros H.
  - reflexivity.
  - cbn [app readline].
    destruct (Z.eqb_spec (code b) 10) as [E | _].
    + apply code_x0a in E. exfalso; apply H; left; auto.
    + rewrite IH; [reflexivity |]. intros Hin; apply H; right; exact Hin.
Qed.

Lemma stream_app (a b : list (list byte)) :
  stream (a ++ b) = stream a ++ stream b.
Proof. apply flat_map_app. Qed.

Lemma stream_cons_length (b : list byte) (q : list (list byte)) :
  (0 <? Z.of_nat (List.length (stream (b :: q)))) = true.
Proof.
  apply Z.ltb_lt. cbn [stream flat_map]. unfold sent.
  rewrite !length_app. cbn [List.length]. lia.
Qed.

Lemma whole_app (a b : list (list byte)) :
  whole a -> whole b -> whole (a ++ b).
Proof. intros Ha Hb; apply Forall_app; split; assumption. Qed.

Lemma texts_app (a b : list (list byte)) :
  texts_of (a ++ b) = texts_of a ++ texts_of b.
Proof. unfold texts_of. rewrite map_app, filter_app. reflexivity. Qed.

Lemma texts_cons_empty (b : list byte) (q : list (list byte)) :
  text_of b = [] -> texts_of (b :: q) = texts_of q.
Proof. intros H. unfold texts_of. cbn [map filter]. rewrite H. reflexivity. Qed.

Lemma texts_cons_line (b : list byte) (q : list (list byte)) :
  text_of b <> [] -> texts_of (b :: q) = text_of b :: texts_of q.
Proof.
  intros H. unfold texts_of. cbn [map filter].
  destruct (text_of b); [contradiction | reflexivity].
Qed.

Lemma ends_nonempty (e : bool) (l : pystr) : ends e l -> l <> [].
Proof.
  intros [H | [_ ->]]; [| discriminate].
  apply terminal_cases in H.
  destruct H as [-> | [-> | [-> | ->]]]; discriminate.
Qed.

Lemma goes_on_tests (e : bool) (l : pystr) :
  goes_on e l ->
  e && str_eqb l prompt = false /\ str_in l terminal_tokens = false.
Proof.
  intros [Ht Hp]. split.
  - destruct e; [| reflexivity]. cbn [andb].
    destruct (str_eqb l prompt) eqn:E; [| reflexivity].
    apply str_eqb_eq in E. exfalso; exact (Hp eq_refl E).
  - destruct (str_in l terminal_tokens) eqn:E; [| reflexivity].
    apply str_in_In in E. contradiction.
Qed.

Lemma ends_tests (e : bool) (l : pystr) :
  ends e l ->
  (if e && str_eqb l prompt then true
   else str_in l terminal_tokens) = true.
Proof.
  intros [H | [-> ->]].
  - apply str_in_In in H. rewrite H. destruct (e && _); reflexivity.
  - reflexivity.
Qed.

(** One turn of [collect] within the deadline, with the link up and whole
    lines in the buffer: the loop reads the oldest line, if there is one. *)
Lemma collect_turn e st tmo acc p F s q :
  rxbuf s = stream q -> link_up s = true ->
  fst p - st < 1000 * tmo -> whole q -> whole (snd p) ->
  ATBNTester.collect e st tmo acc (turn p :: F) s =
    match q ++ snd p with
    | [] => ATBNTester.collect e st tmo acc F (arrive (turn p) s)
    | b :: q' =>
      let s1 := set_rxbuf (stream q') (arrive (turn p) s) in
      match text_of b with
      | [] => ATBNTester.collect e st tmo acc F s1
      | _ :: _ =>
        let s2 := logging (Info_Received (text_of b)) s1 in
        if e && str_eqb (text_of b) prompt
        then (Returned (true, acc ++ [text_of b]), s2, F)
        else if str_in (text_of b) terminal_tokens
        then (Returned (str_in (text_of b) success_tokens, acc ++ [text_of b]),
              s2, F)
        else ATBNTester.collect e st tmo (acc ++ [text_of b]) F s2
      end
    end.
Proof.
  intros Hq Hl Ht Wq Wp.
  cbn [ATBNTester.collect].
  assert (Hnow : now (arrive (turn p) s) = fst p) by reflexivity.
  assert (Hup : link_up (arrive (turn p) s) = true)
    by (cbn; rewrite Hl; reflexivity).
  assert (Hrx : rxbuf (arrive (turn p) s) = stream (q ++ snd p))
    by (cbn; rewrite Hq, stream_app; reflexivity).
  rewrite Hnow, Hup, Hrx.
  replace (fst p - st <? 1000 * tmo) with true
    by (symmetry; apply Z.ltb_lt; exact Ht).
  pose proof (whole_app _ _ Wq Wp) as W.
  destruct (q ++ snd p) as [|b q']; [reflexivity |].
  rewrite stream_cons_length.
  cbn [stream flat_map].
  rewrite readline_sent by (inversion W; assumption).
  fold (stream q'). fold (text_of b). reflexivity.
Qed.

(** A turn that finds nothing to read. *)
Lemma collect_turn_idle e st tmo acc p F s q :
  rxbuf s = stream q -> link_up s = true ->
  fst p - st < 1000 * tmo -> whole q -> whole (snd p) ->
  q ++ snd p = [] ->
  exists s1,
    ATBNTester.collect e st tmo acc (turn p :: F) s
    = ATBNTester.collect e st tmo acc F s1
    /\ rxbuf s1 = stream [] /\ link_up s1 = true /\ log s1 = log s.
Proof.
  intros Hq Hl Ht Wq Wp E.
  rewrite (collect_turn e st tmo acc p F s q Hq Hl Ht Wq Wp), E.
  exists (arrive (turn p) s). split; [reflexivity |].
  split; [| split; [cbn; rewrite Hl; reflexivity | reflexivity]].
  cbn [rxbuf arrive turn t_arrived]. rewrite Hq, <- stream_app, E.
  reflexivity.
Qed.

(** A turn that reads a line which does not end the collection: the line is
    appended, unless it is empty after trimming. *)
Lemma collect_turn_goes_on e st tmo acc p F s q b q' :
  rxbuf s = stream q -> link_up s = true ->
  fst p - st < 1000 * tmo -> whole q -> whole (snd p) ->
  q ++ snd p = b :: q' -> goes_on e (text_of b) ->
  exists s1,
    ATBNTester.collect e st tmo acc (turn p :: F) s
    = ATBNTester.collect e st tmo (acc ++ texts_of [b]) F s1
    /\ rxbuf s1 = stream q' /\ link_up s1 = true
    /\ log s1 = log s ++ map Info_Received (texts_of [b]).
Proof.
  intros Hq Hl Ht Wq Wp E G.
  rewrite (collect_turn e st tmo acc p F s q Hq Hl Ht Wq Wp), E.
  cbv zeta. unfold texts_of. cbn [map filter].
  destruct (text_of b) as [|c l] eqn:Eb; cbn [nonempty].
  - exists (set_rxbuf (stream q') (arrive (turn p) s)).
    rewrite !app_nil_r. split; [reflexivity |].
    split; [reflexivity | split; [cbn; rewrite Hl; reflexivity |]].
    reflexivity.
  - destruct (goes_on_tests e _ G) as [T1 T2]. rewrite T1, T2.
    exists (logging (Info_Received (c :: l))
              (set_rxbuf (stream q') (arrive (turn p) s))).
    split; [reflexivity |].
    split; [reflexivity | split; [cbn; rewrite Hl; reflexivity |]].
    reflexivity.
Qed.

(** A turn that reads a line which ends the collection. *)
Lemma collect_turn_ends e st tmo acc p F s q b q' :
  rxbuf s = stream q -> link_up s = true ->
  fst p - st < 1000 * tmo -> whole q -> whole (snd p) ->
  q ++ snd p = b :: q' -> ends e (text_of b) ->
  exists s1,
    ATBNTester.collect e st tmo acc (turn p :: F) s
    = (Returned (verdict e (text_of b), acc ++ [text_of b]), s1, F)
    /\ log s1 = log s ++ [Info_Received (text_of b)].
Proof.
  intros Hq Hl Ht Wq Wp E G.
  rewrite (collect_turn e st tmo acc p F s q Hq Hl Ht Wq Wp), E.
  cbv zeta. pose proof (ends_nonempty e _ G) as Hne.
  pose proof (ends_tests e _ G) as T. unfold verdict.
  destruct (text_of b) as [|c l] eqn:Eb; [contradiction |].
  exists (logging (Info_Received (c :: l))
            (set_rxbuf (stream q') (arrive (turn p) s))).
  split; [| reflexivity].
  destruct (e && str_eqb (c :: l) prompt); [reflexivity |].
  rewrite T. reflexivity.
Qed.

Lemma whole_tail (b : list byte) (q : list (list byte)) :
  whole (b :: q) -> whole q.
Proof. intros H; inversion H; assumption. Qed.

(** The loop stops at the first line that ends the collection, when enough
    turns within the deadline follow for the lines before it to be read. *)
Lemma collect_stops_queued e st tmo t :
  ends e (text_of t) ->
  forall pre post B2 rest acc s,
    rxbuf s = stream (pre ++ t :: post) -> link_up s = true ->
    whole (pre ++ t :: post) -> timely st tmo B2 ->
    Forall (fun b => goes_on e (text_of b)) pre ->
    (List.length pre < List.length B2)%nat ->
    exists s' F',
      ATBNTester.collect e st tmo acc (turns B2 ++ rest) s
      = (Returned (verdict e (text_of t), acc ++ texts_of pre ++ [text_of t]), s', F')
      /\ log s' = log s ++ map Info_Received (texts_of pre ++ [text_of t]).
Proof.
  intros He.
  induction pre as [|b pre IH]; intros post B2 rest acc s Hq Hl W HB Hpre Hn;
    (destruct B2 as [|p B2]; [cbn in Hn; lia |]);
    inversion HB as [|? ? [Hp Wp] HB']; subst;
    change (turns (p :: B2) ++ rest) with (turn p :: (turns B2 ++ rest)).
  - destruct (collect_turn_ends e st tmo acc p (turns B2 ++ rest) s _ t
                (post ++ snd p) Hq Hl Hp W Wp eq_refl He) as (s1 & E & L).
    exists s1, (turns B2 ++ rest). split; [exact E | exact L].
  - inversion Hpre as [|? ? Hb Hpre']; subst.
    destruct (collect_turn_goes_on e st tmo acc p (turns B2 ++ rest) s _ b
                (pre ++ t :: post ++ snd p) Hq Hl Hp W Wp)
      as (s1 & E & R1 & U1 & L1);
      [cbn [app]; rewrite <- app_assoc; reflexivity | exact Hb |].
    assert (W' : whole (pre ++ t :: post ++ snd p)).
    { change (pre ++ t :: post ++ snd p)
        with (pre ++ (t :: post) ++ snd p).
      rewrite app_assoc. apply whole_app; [| exact Wp].
      apply (whole_tail b); exact W. }
    cbn [List.length] in Hn.
    destruct (IH (post ++ snd p) B2 rest (acc ++ texts_of [b]) s1)
      as (s' & F' & E' & L');
      [exact R1 | exact U1 | exact W' | exact HB' | exact Hpre' | lia |].
    exists s', F'. split.
    + rewrite E, E'.
      change (b :: pre) with ([b] ++ pre).
      rewrite texts_app, <- !app_assoc. reflexivity.
    + rewrite L', L1. change (b :: pre) with ([b] ++ pre).
      rewrite texts_app, !map_app, <- !app_assoc.
      reflexivity.
Qed.

Lemma collect_stops e st tmo t :
  ends e (text_of t) ->
  forall B1 B2 rest q acc s pre post,
    rxbuf s = stream q -> link_up s = true -> whole q ->
    timely st tmo B1 -> timely st tmo B2 ->
    q ++ arrivals B1 = pre ++ t :: post ->
    Forall (fun b => goes_on e (text_of b)) pre ->
    (List.length pre < List.length B2)%nat ->
    exists s' F',
      ATBNTester.collect e st tmo acc (turns B1 ++ turns B2 ++ rest) s
      = (Returned (verdict e (text_of t), acc ++ texts_of pre ++ [text_of t]), s', F')
      /\ log s' = log s ++ map Info_Received (texts_of pre ++ [text_of t]).
Proof.
  intros He.
  induction B1 as [|p B1 IH];
    intros B2 rest q acc s pre post Hq Hl W HB1 HB2 Hs Hpre Hn.
  - cbn [arrivals flat_map] in Hs. rewrite app_nil_r in Hs. subst q.
    apply (collect_stops_queued e st tmo t He pre post B2 rest acc s);
      assumption.
  - inversion HB1 as [|? ? [Hp Wp] HB1']; subst.
    change (turns (p :: B1) ++ turns B2 ++ rest)
      with (turn p :: (turns B1 ++ turns B2 ++ rest)).
    cbn [arrivals flat_map] in Hs. fold (arrivals B1) in Hs.
    rewrite app_assoc in Hs.
    pose proof (whole_app _ _ W Wp) as W'.
    destruct (q ++ snd p) as [|b q'] eqn:Eq.
    + destruct (collect_turn_idle e st tmo acc p
                  (turns B1 ++ turns B2 ++ rest) s q Hq Hl Hp W Wp Eq)
        as (s1 & E & R1 & U1 & L1).
      destruct (IH B2 rest [] acc s1 pre post)
        as (s' & F' & E' & L');
        [exact R1 | exact U1 | constructor | exact HB1' | exact HB2
        | exact Hs | exact Hpre | exact Hn |].
      exists s', F'. split; [rewrite E; exact E' | rewrite L', L1; reflexivity].
    + destruct pre as [|b' pre].
      * cbn [app] in Hs. injection Hs as -> Hs.
        destruct (collect_turn_ends e st tmo acc p
                    (turns B1 ++ turns B2 ++ rest) s q t q'
                    Hq Hl Hp W Wp Eq He) as (s1 & E & L).
        exists s1, (turns B1 ++ turns B2 ++ rest).
        split; [exact E | exact L].
      * cbn [app] in Hs. injection Hs as -> Hs.
        inversion Hpre as [|? ? Hb Hpre']; subst.
        destruct (collect_turn_goes_on e st tmo acc p
                    (turns B1 ++ turns B2 ++ rest) s q b' q'
                    Hq Hl Hp W Wp Eq Hb) as (s1 & E & R1 & U1 & L1).
        cbn [List.length] in Hn.
        destruct (IH B2 rest q' (acc ++ texts_of [b']) s1 pre post)
          as (s' & F' & E' & L');
          [exact R1 | exact U1 | apply (whole_tail b'); exact W'
          | exact HB1' | exact HB2 | exact Hs | exact Hpre' | lia |].
        exists s', F'. split.
        -- rewrite E, E'. change (b' :: pre) with ([b'] ++ pre).
           rewrite texts_app, <- !app_assoc. reflexivity.
        -- rewrite L', L1. change (b' :: pre) with ([b'] ++ pre).
           rewrite texts_app, !map_app, <- !app_assoc.
           reflexivity.
Qed.

(** With no line that ends the collection, the loop reads every line, when
    enough idle turns within the deadline follow the last arrival. *)
Lemma collect_reads_queued e st tmo :
  forall B2 rest q acc s,
    rxbuf s = stream q -> link_up s = true -> whole q ->
    timely st tmo B2 -> idle B2 ->
    Forall (fun b => goes_on e (text_of b)) q ->
    (List.length q <= List.length B2)%nat ->
    exists s',
      ATBNTester.collect e st tmo acc (turns B2 ++ rest) s
      = ATBNTester.collect e st tmo (acc ++ texts_of q) rest s'
      /\ rxbuf s' = [] /\ link_up s' = true
      /\ log s' = log s ++ map Info_Received (texts_of q).
Proof.
  induction B2 as [|p B2 IH]; intros rest q acc s Hq Hl W HB HI HG Hn.
  - destruct q; [| cbn in Hn; lia].
    exists s. cbn [turns map app texts_of filter]. rewrite !app_nil_r.
    repeat split; auto.
  - inversion HB as [|? ? [Hp Wp] HB']; subst.
    inversion HI as [|? ? Hi HI']; subst.
    change (turns (p :: B2) ++ rest) with (turn p :: (turns B2 ++ rest)).
    destruct q as [|b q'].
    + destruct (collect_turn_idle e st tmo acc p (turns B2 ++ rest) s []
                  Hq Hl Hp W Wp) as (s1 & E & R1 & U1 & L1);
        [rewrite Hi; reflexivity |].
      destruct (IH rest [] acc s1) as (s' & E' & R' & U' & L');
        [exact R1 | exact U1 | constructor | exact HB' | exact HI'
        | constructor | cbn; lia |].
      exists s'. split; [rewrite E; exact E' |].
      split; [exact R' | split; [exact U' | rewrite L', L1; reflexivity]].
    + inversion HG as [|? ? Hb HG']; subst.
      destruct (collect_turn_goes_on e st tmo acc p (turns B2 ++ rest) s
                  (b :: q') b q' Hq Hl Hp W Wp)
        as (s1 & E & R1 & U1 & L1);
        [rewrite Hi, app_nil_r; reflexivity | exact Hb |].
      cbn [List.length] in Hn.
      destruct (IH rest q' (acc ++ texts_of [b]) s1)
        as (s' & E' & R' & U' & L');
        [exact R1 | exact U1 | apply (whole_tail b); exact W | exact HB'
        | exact HI' | exact HG' | lia |].
      exists s'. split.
      * rewrite E, E'. change (b :: q') with ([b] ++ q').
        rewrite texts_app, <- !app_assoc. reflexivity.
      * split; [exact R' | split; [exact U' |]].
        rewrite L', L1. change (b :: q') with ([b] ++ q').
        rewrite texts_app, !map_app, <- !app_assoc. reflexivity.
Qed.

Lemma collect_reads e st tmo :
  forall B1 B2 rest q acc s,
    rxbuf s = stream q -> link_up s = true -> whole q ->
    timely st tmo B1 -> timely st tmo B2 -> idle B2 ->
    Forall (fun b => goes_on e (text_of b)) (q ++ arrivals B1) ->
    (List.length (q ++ arrivals B1) <= List.length B2)%nat ->
    exists s',
      ATBNTester.collect e st tmo acc (turns B1 ++ turns B2 ++ rest) s
      = ATBNTester.collect e st tmo (acc ++ texts_of (q ++ arrivals B1)) rest s'
      /\ rxbuf s' = [] /\ link_up s' = true
      /\ log s' = log s ++ map Info_Received (texts_of (q ++ arrivals B1)).
Proof.
  induction B1 as [|p B1 IH];
    intros B2 rest q acc s Hq Hl W HB1 HB2 HI HG Hn.
  - cbn [arrivals flat_map] in *. rewrite app_nil_r in *.
    apply (collect_reads_queued e st tmo B2 rest q acc s); assumption.
  - inversion HB1 as [|? ? [Hp Wp] HB1']; subst.
    change (turns (p :: B1) ++ turns B2 ++ rest)
      with (turn p :: (turns B1 ++ turns B2 ++ rest)).
    assert (A : q ++ arrivals (p :: B1) = (q ++ snd p) ++ arrivals B1)
      by (cbn [arrivals flat_map]; apply app_assoc).
    rewrite A in HG, Hn |- *. clear A.
    pose proof (whole_app _ _ W Wp) as W'.
    destruct (q ++ snd p) as [|b q'] eqn:Eq.
    + destruct (collect_turn_idle e st tmo acc p
                  (turns B1 ++ turns B2 ++ rest) s q Hq Hl Hp W Wp Eq)
        as (s1 & E & R1 & U1 & L1).
      destruct (IH B2 rest [] acc s1)
        as (s' & E' & R' & U' & L');
        [exact R1 | exact U1 | constructor | exact HB1' | exact HB2
        | exact HI | exact HG | exact Hn |].
      exists s'. split; [rewrite E; exact E' |].
      split; [exact R' | split; [exact U' | rewrite L', L1; reflexivity]].
    + cbn [app] in HG, Hn.
      inversion HG as [|? ? Hb HG']; subst.
      destruct (collect_turn_goes_on e st tmo acc p
                  (turns B1 ++ turns B2 ++ rest) s q b q'
                  Hq Hl Hp W Wp Eq Hb) as (s1 & E & R1 & U1 & L1).
      cbn [List.length] in Hn.
      destruct (IH B2 rest q' (acc ++ texts_of [b]) s1)
        as (s' & E' & R' & U' & L');
        [exact R1 | exact U1 | apply (whole_tail b); exact W'
        | exact HB1' | exact HB2 | exact HI | exact HG' | lia |].
      exists s'. split.
      * rewrite E, E'. cbn [app].
        change (b :: q' ++ arrivals B1) with ([b] ++ (q' ++ arrivals B1)).
        rewrite (texts_app [b]), <- !app_assoc. reflexivity.
      * split; [exact R' | split; [exact U' |]].
        rewrite L', L1. cbn [app].
        change (b :: q' ++ arrivals B1) with ([b] ++ (q' ++ arrivals B1)).
        rewrite (texts_app [b]), !map_app, <- !app_assoc. reflexivity.
Qed.

(** The loop test fails: the deadline has passed. *)
Lemma collect_late e st tmo acc rest s :
  late st tmo rest ->
  exists s' F',
    ATBNTester.collect e st tmo acc rest s = (Expired acc, s', F')
    /\ log s' = log s.
Proof.
  intros H. destruct rest as [|tk rest].
  - exists s, []. split; reflexivity.
  - cbn [late] in H. cbn [ATBNTester.collect].
    replace (now (arrive tk s) - st <? 1000 * tmo) with false
      by (symmetry; apply Z.ltb_ge; exact H).
    exists (arrive tk s), rest. split; reflexivity.
Qed.

(** The link breaks within the deadline: [in_waiting] raises. *)
Lemma collect_breaks e st tmo acc rest s :
  breaks st tmo rest ->
  exists s' F',
    ATBNTester.collect e st tmo acc rest s = (Raised, s', F')
    /\ log s' = log s.
Proof.
  intros H. destruct rest as [|tk rest]; [contradiction |].
  destruct H as [Ht Hd]. cbn [ATBNTester.collect].
  replace (now (arrive tk s) - st <? 1000 * tmo) with true
    by (symmetry; apply Z.ltb_lt; exact Ht).
  replace (link_up (arrive tk s)) with false
    by (cbn; rewrite Hd, andb_false_r; reflexivity).
  exists (arrive tk s), rest. split; reflexivity.
Qed.

(** [send_command] on a usable port empties the buffer, writes the command
    and runs the loop. *)
Lemma send_command_runs command timeout e s F :
  usable s = true ->
  exists s0,
    rxbuf s0 = stream [] /\ link_up s0 = true
    /\ log s0 = log s ++ [Info_Sent command]
    /\ ATBNTester.send_command command timeout e s F
       = match ATBNTester.collect e (now s) (py_or timeout (self_timeout s))
                 [] F s0 with
         | (Returned v, s1, future) => (v, s1, future)
         | (Expired response_lines, s1, future) =>
           ((false, response_lines),
            logging (Warning_Timeout command) s1, future)
         | (Raised, s1, future) =>
           ((false, []), logging (Error_Sending command) s1, future)
         end.
Proof.
  intros U. unfold usable in U.
  apply andb_true_iff in U. destruct U as [U Hl].
  apply andb_true_iff in U. destruct U as [Hc Ho].
  exists (logging (Info_Sent command)
            (write (list_byte_of_string command ++ [x0d; x0a])
               (reset_input_buffer s))).
  split; [reflexivity | split; [exact Hl | split; [reflexivity |]]].
  unfold ATBNTester.send_command. rewrite Hc, Ho, Hl. reflexivity.
Qed.

Lemma heard_lines s s' (r : record) (ls : list pystr) (tail : list record) :
  log s' = (log s ++ [r]) ++ map Info_Received ls ++ tail ->
  received [r] = [] -> received tail = [] ->
  heard s s' = ls.
Proof.
  intros H Hr Ht. unfold heard.
  rewrite (since_app s s' ([r] ++ map Info_Received ls ++ tail))
    by (rewrite H, <- !app_assoc; reflexivity).
  destruct r; try discriminate Hr;
    cbn [app received]; rewrite received_Info, Ht, app_nil_r; reflexivity.
Qed.

(** What [send_command] returns when a line of the device ends the
    collection. *)
Lemma send_command_stops command timeout e s B1 B2 rest pre t post :
  usable s = true ->
  timely (now s) (py_or timeout (self_timeout s)) B1 ->
  timely (now s) (py_or timeout (self_timeout s)) B2 ->
  arrivals B1 = pre ++ t :: post ->
  Forall (fun b => goes_on e (text_of b)) pre -> ends e (text_of t) ->
  (List.length pre < List.length B2)%nat ->
  exists s' F',
    ATBNTester.send_command command timeout e s
      (turns B1 ++ turns B2 ++ rest)
    = ((verdict e (text_of t), texts_of pre ++ [text_of t]), s', F')
    /\ heard s s' = texts_of pre ++ [text_of t].
Proof.
  intros U H1 H2 Hs Hpre He Hn.
  destruct (send_command_runs command timeout e s
              (turns B1 ++ turns B2 ++ rest) U)
    as (s0 & R0 & U0 & L0 & E).
  destruct (collect_stops e (now s) (py_or timeout (self_timeout s)) t He
              B1 B2 rest [] [] s0 pre post)
    as (s' & F' & C & L); auto; [constructor |].
  rewrite C in E. exists s', F'. split; [exact E |].
  apply (heard_lines s s' (Info_Sent command) _ []);
    [rewrite L, L0, app_nil_r; reflexivity | reflexivity | reflexivity].
Qed.

(** What [send_command] returns when the deadline passes after every line
    of the device was read. *)
Lemma send_command_expires command timeout e s B1 B2 rest :
  usable s = true ->
  timely (now s) (py_or timeout (self_timeout s)) B1 ->
  timely (now s) (py_or timeout (self_timeout s)) B2 -> idle B2 ->
  Forall (fun b => goes_on e (text_of b)) (arrivals B1) ->
  (List.length (arrivals B1) <= List.length B2)%nat ->
  late (now s) (py_or timeout (self_timeout s)) rest ->
  exists s' F',
    ATBNTester.send_command command timeout e s
      (turns B1 ++ turns B2 ++ rest)
    = ((false, texts_of (arrivals B1)), s', F')
    /\ heard s s' = texts_of (arrivals B1)
    /\ ends_with (Warning_Timeout command) (since s s').
Proof.
  intros U H1 H2 HI HG Hn Hr.
  destruct (send_command_runs command timeout e s
              (turns B1 ++ turns B2 ++ rest) U)
    as (s0 & R0 & U0 & L0 & E).
  destruct (collect_reads e (now s) (py_or timeout (self_timeout s))
              B1 B2 rest [] [] s0)
    as (s1 & C & R1 & U1 & L1); auto; [constructor |].
  cbn [app] in C, L1.
  destruct (collect_late e (now s) (py_or timeout (self_timeout s))
              (texts_of (arrivals B1)) rest s1 Hr) as (s2 & F2 & C2 & L2).
  rewrite C, C2 in E. eexists _, _. split; [exact E |].
  assert (L : log (logging (Warning_Timeout command) s2)
              = (log s ++ [Info_Sent command])
                ++ map Info_Received (texts_of (arrivals B1))
                ++ [Warning_Timeout command]).
  { cbn [log logging]. rewrite L2, L1, L0, <- !app_assoc. reflexivity. }
  split.
  - apply (heard_lines _ _ (Info_Sent command) _ [Warning_Timeout command]);
      [exact L | reflexivity | reflexivity].
  - exists (Info_Sent command :: map Info_Received (texts_of (arrivals B1))).
    apply since_app. rewrite L, <- !app_assoc. reflexivity.
Qed.

(** What [send_command] returns when the link breaks after every line of
    the device was read. *)
Lemma send_command_breaks command timeout e s B1 B2 rest :
  usable s = true ->
  timely (now s) (py_or timeout (self_timeout s)) B1 ->
  timely (now s) (py_or timeout (self_timeout s)) B2 -> idle B2 ->
  Forall (fun b => goes_on e (text_of b)) (arrivals B1) ->
  (List.length (arrivals B1) <= List.length B2)%nat ->
  breaks (now s) (py_or timeout (self_timeout s)) rest ->
  exists s' F',
    ATBNTester.send_command command timeout e s
      (turns B1 ++ turns B2 ++ rest)
    = ((false, []), s', F')
    /\ heard s s' = texts_of (arrivals B1)
    /\ ends_with (Error_Sending command) (since s s').
Proof.
  intros U H1 H2 HI HG Hn Hr.
  destruct (send_command_runs command timeout e s
              (turns B1 ++ turns B2 ++ rest) U)
    as (s0 & R0 & U0 & L0 & E).
  destruct (collect_reads e (now s) (py_or timeout (self_timeout s))
              B1 B2 rest [] [] s0)
    as (s1 & C & R1 & U1 & L1); auto; [constructor |].
  cbn [app] in C, L1.
  destruct (collect_breaks e (now s) (py_or timeout (self_timeout s))
              (texts_of (arrivals B1)) rest s1 Hr) as (s2 & F2 & C2 & L2).
  rewrite C, C2 in E. eexists _, _. split; [exact E |].
  assert (L : log (logging (Error_Sending command) s2)
              = (log s ++ [Info_Sent command])
                ++ map Info_Received (texts_of (arrivals B1))
                ++ [Error_Sending command]).
  { cbn [log logging]. rewrite L2, L1, L0, <- !app_assoc. reflexivity. }
  split.
  - apply (heard_lines _ _ (Info_Sent command) _ [Error_Sending command]);
      [exact L | reflexivity | reflexivity].
  - exists (Info_Sent command :: map Info_Received (texts_of (arrivals B1))).
    apply since_app. rewrite L, <- !app_assoc. reflexivity.
Qed.

(** [SimpleATTester]'s loop leaves as [ATBNTester]'s does when no prompt is
    expected, with the lines joined; the two differ in what they log. *)
Lemma response_loop_joined st tmo :
  forall F acc s l,
    exists l',
      SimpleATTester.response_loop st tmo acc F (relog l s)
      = (joined (fst (fst (ATBNTester.collect false st tmo acc F s))),
         relog l' (snd (fst (ATBNTester.collect false st tmo acc F s))),
         snd (ATBNTester.collect false st tmo acc F s)).
Proof.
  induction F as [|tk F IH]; intros acc s l.
  - exists l. reflexivity.
  - cbn [SimpleATTester.response_loop ATBNTester.collect].
    change (arrive tk (relog l s)) with (relog l (arrive tk s)).
    change (now (relog l (arrive tk s))) with (now (arrive tk s)).
    change (link_up (relog l (arrive tk s))) with (link_up (arrive tk s)).
    change (rxbuf (relog l (arrive tk s))) with (rxbuf (arrive tk s)).
    destruct (now (arrive tk s) - st <? 1000 * tmo);
      [| exists l; reflexivity].
    destruct (link_up (arrive tk s)); [| exists l; reflexivity].
    destruct (0 <? Z.of_nat (List.length (rxbuf (arrive tk s))));
      [| apply IH].
    destruct (readline (rxbuf (arrive tk s))) as [raw rest'].
    change (set_rxbuf rest' (relog l (arrive tk s)))
      with (relog l (set_rxbuf rest' (arrive tk s))).
    destruct (strip (Utf8.decode raw)) as [|c line]; [apply IH |].
    cbn [andb].
    change (logging (Print_Response (c :: line))
              (relog l (set_rxbuf rest' (arrive tk s))))
      with (relog (l ++ [Print_Response (c :: line)])
              (logging (Info_Received (c :: line))
                 (set_rxbuf rest' (arrive tk s)))).
    destruct (str_in (c :: line) terminal_tokens); [| apply IH].
    eexists. reflexivity.
Qed.

Lemma relog_log (s : state) : relog (log s) s = s.
Proof. destruct s; reflexivity. Qed.

(** What [send_at_command] returns when a terminal token of the device ends
    the collection.  The buffer is not emptied before the command is
    written: the lines [q] it holds are read first. *)
Lemma send_at_command_stops command s q B1 B2 rest pre t post :
  connected s = true -> link_up s = true ->
  rxbuf s = stream q -> whole q ->
  timely (now s) (self_timeout s) B1 ->
  timely (now s) (self_timeout s) B2 ->
  q ++ arrivals B1 = pre ++ t :: post ->
  Forall (fun b => goes_on false (text_of b)) pre ->
  In (text_of t) terminal_tokens ->
  (List.length pre < List.length B2)%nat ->
  fst (fst (SimpleATTester.send_at_command command s
              (turns B1 ++ turns B2 ++ rest)))
  = Value (str_in (text_of t) success_tokens,
           join newline (texts_of pre ++ [text_of t])).
Proof.
  intros Hc Hl Hq W H1 H2 Hs Hpre Ht Hn.
  unfold SimpleATTester.send_at_command. rewrite Hc. cbn [negb].
  change (link_up (logging (Print_Sending command) s)) with (link_up s).
  rewrite Hl.
  set (s1 := write (list_byte_of_string command ++ [x0d; x0a])
               (logging (Print_Sending command) s)).
  change (now s1) with (now s). change (self_timeout s1) with (self_timeout s).
  assert (He : ends false (text_of t)) by (left; exact Ht).
  destruct (collect_stops false (now s) (self_timeout s) t He
              B1 B2 rest q [] s1 pre post)
    as (s' & F' & C & _); auto.
  destruct (response_loop_joined (now s) (self_timeout s)
              (turns B1 ++ turns B2 ++ rest) [] s1 (log s1)) as [l' E].
  rewrite relog_log in E. rewrite E, C. cbn [fst snd joined app].
  unfold verdict. cbn [andb]. reflexivity.
Qed.

(** The first line that ends the collection, found among the texts. *)
Lemma texts_split e (xs ys : list pystr) (x : pystr) :
  Forall (goes_on e) xs ->
  forall l, texts_of l = xs ++ x :: ys ->
    exists pre t post,
      l = pre ++ t :: post /\ text_of t = x /\ texts_of pre = xs
      /\ Forall (fun b => goes_on e (text_of b)) pre.
Proof.
  intros Hxs. induction xs as [|x0 xs IHx]; intros l.
  - induction l as [|b l IHl]; intros H; [discriminate H |].
    destruct (text_of b) as [|c r] eqn:Eb.
    + rewrite texts_cons_empty in H by exact Eb.
      destruct (IHl H) as (pre & t & post & -> & Ht & Hp & HF).
      exists (b :: pre), t, post. split; [reflexivity |].
      split; [exact Ht | split].
      * rewrite texts_cons_empty by exact Eb. exact Hp.
      * constructor; [| exact HF]. rewrite Eb.
        split; [| discriminate].
        intros Hin. apply terminal_cases in Hin.
        destruct Hin as [Hin | [Hin | [Hin | Hin]]]; discriminate Hin.
    + rewrite texts_cons_line in H by (rewrite Eb; discriminate).
      cbn [app] in H. injection H as Hx Hy.
      exists [], b, l. repeat split; [exact Hx | constructor].
  - inversion Hxs as [|? ? Hx0 Hxs']; subst.
    specialize (IHx Hxs').
    induction l as [|b l IHl]; intros H; [discriminate H |].
    destruct (text_of b) as [|c r] eqn:Eb.
    + rewrite texts_cons_empty in H by exact Eb.
      destruct (IHl H) as (pre & t & post & -> & Ht & Hp & HF).
      exists (b :: pre), t, post. split; [reflexivity |].
      split; [exact Ht | split].
      * rewrite texts_cons_empty by exact Eb. exact Hp.
      * constructor; [| exact HF]. rewrite Eb.
        split; [| discriminate].
        intros Hin. apply terminal_cases in Hin.
        destruct Hin as [Hin | [Hin | [Hin | Hin]]]; discriminate Hin.
    + rewrite texts_cons_line in H by (rewrite Eb; discriminate).
      cbn [app] in H. injection H as Hx Hy.
      destruct (IHx l Hy) as (pre & t & post & -> & Ht & Hp & HF).
      exists (b :: pre), t, post. split; [reflexivity |].
      split; [exact Ht | split].
      * rewrite texts_cons_line by (rewrite Eb; discriminate).
        rewrite Hx, Hp. reflexivity.
      * constructor; [| exact HF]. rewrite Hx. exact Hx0.
Qed.

Lemma timely_app st tmo B1 B2 :
  timely st tmo (B1 ++ B2) -> timely st tmo B1 /\ timely st tmo B2.
Proof. apply Forall_app. Qed.

Lemma texts_snoc (pre : list (list byte)) (t : list byte) :
  text_of t <> [] -> texts_of (pre ++ [t]) = texts_of pre ++ [text_of t].
Proof.
  intros H. rewrite texts_app, texts_cons_line by exact H. reflexivity.
Qed.

End Served.

(** ** Terminal tokens end a transaction and decide its status *)

Section Classification.
Import Engine Served.

Lemma verdict_terminal (e : bool) (t : pystr) :
  In t terminal_tokens ->
  verdict e t = str_in t success_tokens.
Proof.
  intros H; unfold verdict; rewrite (terminal_not_prompt t H), andb_false_r.
  reflexivity.
Qed.

Lemma success_terminal (t : pystr) :
  In t terminal_tokens ->
  (str_in t success_tokens = true <-> t = lit "OK" \/ t = lit "SEND OK") /\
  (str_in t success_tokens = false <->
   t = lit "ERROR" \/ t = lit "SEND FAIL").
Proof.
  intros H; apply terminal_cases in H.
  destruct H as [-> | [-> | [-> | ->]]]; vm_compute;
    repeat split; intros H; try congruence; auto;
    destruct H as [H | H]; congruence.
Qed.

Lemma stopper_not_passes (e : bool) (t : pystr) :
  stops e t = true -> ~ passes e t.
Proof. intros H [_ H']; congruence. Qed.

(** A terminal token among the received lines is the last of them, and
    decides the result. *)
Lemma terminal_line_is_last :
  forall command timeout e s future ok lines s' future' pre t post,
      ATBNTester.send_command command timeout e s future
        = (ok, lines, s', future') ->
      heard s s' = pre ++ t :: post ->
      In t terminal_tokens ->
      post = [] /\ lines = pre ++ [t] /\
      (ok = true <-> t = lit "OK" \/ t = lit "SEND OK") /\
      (ok = false <-> t = lit "ERROR" \/ t = lit "SEND FAIL").
Proof.
  intros command timeout e s future ok lines s' future' pre t post H Hh Ht.
  apply send_command_transaction, transaction_heard in H.
  unfold heard in Hh.
  pose proof (stopper_not_passes e t (terminal_stops e t Ht)) as Hn.
  destruct H as [(pre' & t' & Hr & HF & _ & _ & Hres & _) | [HF _]].
  - rewrite Hr in Hh. symmetry in Hh.
    destruct (last_stopper _ _ _ _ _ _ HF Hn Hh) as [-> [-> ->]].
    injection Hres as -> ->.
    rewrite (verdict_terminal e t' Ht).
    split; [reflexivity | split; [reflexivity |]].
    apply success_terminal; assumption.
  - exfalso; eapply no_stopper; eauto.
Qed.

(** C1. Collection ends at the first line of the device whose trimmed text
    is exactly one of [OK], [ERROR], [SEND OK], [SEND FAIL].  Whatever
    lines the device sends, in whatever turns within the deadline: when the
    first line [t] whose text is a token comes after the lines [pre], none
    of which is one (lines that only contain or resemble a token are among
    them), and enough turns follow for [pre] to be read, the transaction
    returns the texts of [pre] and of [t] and nothing of what the device
    sent after [t]; the status is success exactly when the text of [t] is
    [OK] or [SEND OK], and failure exactly when it is [ERROR] or
    [SEND FAIL].  This holds for [ATBNTester.send_command] on a usable port
    and for [SimpleATTester.send_at_command], which reads the lines left in
    its buffer first.  In particular, device lines whose texts are
    ["+GMR line"; "OK"] give success and [["ERROR"]] gives failure.  And in
    every transaction, whatever the script, a token among the lines a call
    records as received is the last of them and decides the result. *)
Theorem C1_terminal_token_ends_and_classifies :
  (forall command timeout e s B1 B2 rest pre t post,
      usable s = true ->
      timely (now s) (py_or timeout (self_timeout s)) (B1 ++ B2) ->
      arrivals B1 = pre ++ t :: post ->
      Forall (fun b => goes_on e (text_of b)) pre ->
      In (text_of t) terminal_tokens ->
      (List.length pre < List.length B2)%nat ->
      let r := ATBNTester.send_command command timeout e s
                 (turns B1 ++ turns B2 ++ rest) in
      let ok := fst (fst (fst r)) in
      snd (fst (fst r)) = texts_of pre ++ [text_of t]
      /\ heard s (snd (fst r)) = texts_of pre ++ [text_of t]
      /\ (ok = true <-> text_of t = lit "OK" \/ text_of t = lit "SEND OK")
      /\ (ok = false <->
          text_of t = lit "ERROR" \/ text_of t = lit "SEND FAIL"))
  /\
  (forall command s q B1 B2 rest pre t post,
      connected s = true -> link_up s = true ->
      rxbuf s = stream q -> whole q ->
      timely (now s) (self_timeout s) (B1 ++ B2) ->
      q ++ arrivals B1 = pre ++ t :: post ->
      Forall (fun b => goes_on false (text_of b)) pre ->
      In (text_of t) terminal_tokens ->
      (List.length pre < List.length B2)%nat ->
      exists ok,
        fst (fst (SimpleATTester.send_at_command command s
                    (turns B1 ++ turns B2 ++ rest)))
        = Value (ok, join newline (texts_of pre ++ [text_of t]))
        /\ (ok = true <-> text_of t = lit "OK" \/ text_of t = lit "SEND OK")
        /\ (ok = false <->
            text_of t = lit "ERROR" \/ text_of t = lit "SEND FAIL"))
  /\
  (forall command timeout e s B1 B2 rest,
      usable s = true ->
      timely (now s) (py_or timeout (self_timeout s)) (B1 ++ B2) ->
      (List.length (arrivals B1) <= List.length B2)%nat ->
      let r := ATBNTester.send_command command timeout e s
                 (turns B1 ++ turns B2 ++ rest) in
      (texts_of (arrivals B1) = [lit "+GMR line"; lit "OK"] ->
         fst (fst r) = (true, [lit "+GMR line"; lit "OK"]))
      /\ (texts_of (arrivals B1) = [lit "ERROR"] ->
            fst (fst r) = (false, [lit "ERROR"])))
  /\
  (forall command timeout e s future ok lines s' future' pre t post,
      ATBNTester.send_command command timeout e s future
        = (ok, lines, s', future') ->
      heard s s' = pre ++ t :: post ->
      In t terminal_tokens ->
      post = [] /\ lines = pre ++ [t] /\
      (ok = true <-> t = lit "OK" \/ t = lit "SEND OK") /\
      (ok = false <-> t = lit "ERROR" \/ t = lit "SEND FAIL"))
  /\
  (forall command s future out s' future' pre t post,
      SimpleATTester.send_at_command command s future
        = (out, s', future') ->
      heard s s' = pre ++ t :: post ->
      In t terminal_tokens ->
      post = [] /\
      exists ok, out = Value (ok, join newline (pre ++ [t])) /\
        (ok = true <-> t = lit "OK" \/ t = lit "SEND OK") /\
        (ok = false <-> t = lit "ERROR" \/ t = lit "SEND FAIL")).
Proof.
  assert (A : forall command timeout e s B1 B2 rest pre t post,
      usable s = true ->
      timely (now s) (py_or timeout (self_timeout s)) (B1 ++ B2) ->
      arrivals B1 = pre ++ t :: post ->
      Forall (fun b => goes_on e (text_of b)) pre ->
      In (text_of t) terminal_tokens ->
      (List.length pre < List.length B2)%nat ->
      fst (fst (ATBNTester.send_command command timeout e s
                  (turns B1 ++ turns B2 ++ rest)))
      = (str_in (text_of t) success_tokens, texts_of pre ++ [text_of t])
      /\ heard s (snd (fst (ATBNTester.send_command command timeout e s
                              (turns B1 ++ turns B2 ++ rest))))
         = texts_of pre ++ [text_of t]).
  { intros command timeout e s B1 B2 rest pre t post U HB Hs Hpre Ht Hn.
    apply timely_app in HB. destruct HB as [H1 H2].
    destruct (send_command_stops command timeout e s B1 B2 rest pre t post
                U H1 H2 Hs Hpre (or_introl Ht) Hn) as (s' & F' & E & Hh).
    rewrite E. cbn [fst snd]. rewrite (verdict_terminal e _ Ht).
    split; [reflexivity | exact Hh]. }
  split; [| split; [| split; [| split]]].
  - intros command timeout e s B1 B2 rest pre t post U HB Hs Hpre Ht Hn.
    cbv zeta.
    destruct (A command timeout e s B1 B2 rest pre t post U HB Hs Hpre Ht Hn)
      as [E Hh].
    rewrite (surjective_pairing (fst (fst _))) in E.
    injection E as Eok El.
    split; [exact El | split; [exact Hh |]].
    rewrite Eok. apply success_terminal; exact Ht.
  - intros command s q B1 B2 rest pre t post Hc Hl Hq W HB Hs Hpre Ht Hn.
    apply timely_app in HB. destruct HB as [H1 H2].
    exists (str_in (text_of t) success_tokens).
    split; [| apply success_terminal; exact Ht].
    apply (send_at_command_stops command s q B1 B2 rest pre t post);
      assumption.
  - intros command timeout e s B1 B2 rest U HB Hn. cbv zeta. split; intros Hx.
    + destruct (texts_split e [lit "+GMR line"] [] (lit "OK"))
        with (l := arrivals B1)
        as (pre & t & post & Hs & Ht & Hp & HF).
      { constructor; [| constructor]. split; [| discriminate].
        intros Hin. apply terminal_cases in Hin.
        destruct Hin as [Hin | [Hin | [Hin | Hin]]]; discriminate Hin. }
      { exact Hx. }
      assert (Tt : In (text_of t) terminal_tokens)
        by (rewrite Ht; left; reflexivity).
      destruct (A command timeout e s B1 B2 rest pre t post U HB Hs HF Tt)
        as [E _].
      { rewrite Hs, length_app in Hn. cbn [List.length] in Hn. lia. }
      rewrite E, Hp, Ht. reflexivity.
    + destruct (texts_split e [] [] (lit "ERROR")) with (l := arrivals B1)
        as (pre & t & post & Hs & Ht & Hp & HF).
      { constructor. }
      { exact Hx. }
      assert (Tt : In (text_of t) terminal_tokens)
        by (rewrite Ht; right; left; reflexivity).
      destruct (A command timeout e s B1 B2 rest pre t post U HB Hs HF Tt)
        as [E _].
      { rewrite Hs, length_app in Hn. cbn [List.length] in Hn. lia. }
      rewrite E, Hp, Ht. reflexivity.
  - intros command timeout e s future ok lines s' future' pre t post H Hh Ht.
    apply send_command_transaction, transaction_heard in H.
    unfold heard in Hh.
    pose proof (stopper_not_passes e t (terminal_stops e t Ht)) as Hn.
    destruct H as [(pre' & t' & Hr & HF & _ & _ & Hres & _) | [HF _]].
    + rewrite Hr in Hh. symmetry in Hh.
      destruct (last_stopper _ _ _ _ _ _ HF Hn Hh) as [-> [-> ->]].
      injection Hres as -> ->.
      rewrite (verdict_terminal e t' Ht).
      split; [reflexivity | split; [reflexivity |]].
      apply success_terminal; assumption.
    + exfalso; eapply no_stopper; eauto.
  - intros command s future out s' future' pre t post H Hh Ht.
    apply SimpleEngine.send_at_command_transaction in H.
    unfold heard in Hh.
    pose proof (stopper_not_passes false t (terminal_stops false t Ht)) as Hn.
    apply SimpleEngine.simple_transaction_heard in H.
    destruct H as [(pre' & t' & Hr & HF & _ & Hres) | [HF _]].
    + rewrite Hr in Hh. symmetry in Hh.
      destruct (last_stopper _ _ _ _ _ _ HF Hn Hh) as [-> [-> ->]].
      split; [reflexivity |].
      exists (str_in t' success_tokens); split; [assumption |].
      apply success_terminal; assumption.
    + exfalso; eapply no_stopper; eauto.
Qed.

End Classification.

Ltac no_token :=
  let H := fresh in
  intros H; apply str_in_In in H;
  match type of H with
  | ?x = true =>
    let K := fresh in
    assert (K : x = false) by (vm_compute; reflexivity);
    rewrite K in H; discriminate H
  end.

Ltac whole_lines :=
  cbv [timely whole gmr_answer gmr_part quiet app fst snd];
  repeat first
    [ apply Forall_nil
    | apply Forall_cons
    | split
    | lia
    | let H := fresh in
      intros H; cbn in H; repeat destruct H as [H | H];
      first [discriminate H | exact H] ].

Lemma C1_terminal_token_witness :
  usable fresh = true
  /\ In (text_of (cr "OK")) terminal_tokens
  /\ fst (fst (ATBNTester.send_command "AT+GMR" None false fresh
                 (turns gmr_answer ++ turns quiet ++ [])))
     = (true, [lit "+GMR line"; lit "OKAY"; lit "OK"])
  /\ fst (fst (SimpleATTester.send_at_command "AT+GMR" stale_line
                 (turns gmr_answer ++ turns quiet ++ [])))
     = Value (true, lit "busy p..." ++ newline ++ lit "+GMR line"
                      ++ newline ++ lit "OKAY" ++ newline ++ lit "OK").
Proof.
  assert (U : usable fresh = true) by reflexivity.
  assert (Tt : In (text_of (cr "OK")) terminal_tokens)
    by (apply str_in_In; vm_compute; reflexivity).
  assert (Tx : text_of (cr "OK") = lit "OK") by (vm_compute; reflexivity).
  assert (T : timely 0 10 (gmr_answer ++ quiet)) by whole_lines.
  assert (G : Forall (fun b => goes_on false (text_of b))
                [cr "+GMR line"; cr "OKAY"])
    by (repeat constructor; try no_token; discriminate).
  assert (G' : Forall (fun b => goes_on false (text_of b))
                 [cr "busy p..."; cr "+GMR line"; cr "OKAY"])
    by (repeat constructor; try no_token; discriminate).
  assert (L : (List.length [cr "+GMR line"; cr "OKAY"]
               < List.length quiet)%nat) by (vm_compute; lia).
  assert (L' : (List.length [cr "busy p..."; cr "+GMR line"; cr "OKAY"]
                < List.length quiet)%nat) by (vm_compute; lia).
  split; [exact U | split; [exact Tt |]].
  destruct C1_terminal_token_ends_and_classifies as (A & B & _).
  split.
  - pose proof (A "AT+GMR"%string None false fresh gmr_answer quiet []
                  [cr "+GMR line"; cr "OKAY"] (cr "OK") [cr "ERROR"]
                  U T eq_refl G Tt L) as H.
    cbv zeta in H. destruct H as (Hl & _ & Hok & _).
    rewrite (surjective_pairing (fst (fst _))), Hl.
    rewrite (proj2 Hok (or_introl Tx)). vm_compute. reflexivity.
  - destruct (B "AT+GMR"%string stale_line [cr "busy p..."] gmr_answer
                quiet [] [cr "busy p..."; cr "+GMR line"; cr "OKAY"]
                (cr "OK") [cr "ERROR"] eq_refl eq_refl eq_refl)
      as (ok & E & Hok & _); [whole_lines | exact T | reflexivity
                              | exact G' | exact Tt | exact L' |].
    rewrite E, (proj2 Hok (or_introl Tx)). vm_compute. reflexivity.
Defined.

(** ** The data prompt *)

Section Prompt.
Import Engine.





End Prompt.

(** ** What a transaction returns of the lines it received *)

Section Returned.
Import Engine Served.

(** C3, as the claim states it, fails: the link breaks after one line was
    received, and the call returns no line at all. *)
Lemma C3_line_dropped_when_link_breaks :
  In (lit "+GMR line") (heard fresh (snd (fst run_unplugged_after_line)))
  /\ ~ In (lit "+GMR line") (snd (fst (fst run_unplugged_after_line))).
Proof.
  split; [left; vm_compute; reflexivity |].
  vm_compute; intros H; exact H.
Qed.

(** C3, amended. What [send_command] returns of the lines the device sent,
    whatever they look like.  When a line [t] ends the collection (a
    terminal token, or the prompt when it is expected), the returned lines
    are exactly the texts, not empty after trimming, of the lines the
    device sent up to and including [t], in their order.  When the device
    sends lines none of which ends the collection and the deadline passes
    after they were read, the returned lines are exactly their non-empty
    texts, in order.  When the link breaks after they were read, the except
    handler returns an empty list: the lines, which the call had logged as
    received, are not returned.  And in every transaction, whatever the
    script, the returned lines are the lines the call recorded as received,
    none of them empty, unless an exception was raised, which the log
    records as an error, and the returned list is empty. *)
Theorem C3_returned_lines_are_the_received_lines :
  (forall command timeout e s B1 B2 rest pre t post,
      usable s = true ->
      timely (now s) (py_or timeout (self_timeout s)) (B1 ++ B2) ->
      arrivals B1 = pre ++ t :: post ->
      Forall (fun b => goes_on e (text_of b)) pre ->
      ends e (text_of t) ->
      (List.length pre < List.length B2)%nat ->
      let r := ATBNTester.send_command command timeout e s
                 (turns B1 ++ turns B2 ++ rest) in
      snd (fst (fst r)) = texts_of (pre ++ [t])
      /\ heard s (snd (fst r)) = texts_of (pre ++ [t]))
  /\
  (forall command timeout e s B1 B2 rest,
      usable s = true ->
      timely (now s) (py_or timeout (self_timeout s)) (B1 ++ B2) ->
      idle B2 ->
      Forall (fun b => goes_on e (text_of b)) (arrivals B1) ->
      (List.length (arrivals B1) <= List.length B2)%nat ->
      let r := ATBNTester.send_command command timeout e s
                 (turns B1 ++ turns B2 ++ rest) in
      (late (now s) (py_or timeout (self_timeout s)) rest ->
         fst (fst r) = (false, texts_of (arrivals B1))
         /\ heard s (snd (fst r)) = texts_of (arrivals B1))
      /\
      (breaks (now s) (py_or timeout (self_timeout s)) rest ->
         fst (fst r) = (false, [])
         /\ heard s (snd (fst r)) = texts_of (arrivals B1)))
  /\
  (forall command timeout e s future ok lines s' future',
      ATBNTester.send_command command timeout e s future
        = (ok, lines, s', future') ->
      Forall (fun l => l <> []) (heard s s') /\
      (lines = heard s s'
       \/ (lines = [] /\ ends_with (Error_Sending command) (since s s')))).
Proof.
  split; [| split].
  - intros command timeout e s B1 B2 rest pre t post U HB Hs Hpre He Hn.
    cbv zeta. apply timely_app in HB. destruct HB as [H1 H2].
    destruct (send_command_stops command timeout e s B1 B2 rest pre t post
                U H1 H2 Hs Hpre He Hn) as (s' & F' & E & Hh).
    rewrite E. cbn [fst snd].
    rewrite (texts_snoc pre t (ends_nonempty e _ He)).
    split; [reflexivity | exact Hh].
  - intros command timeout e s B1 B2 rest U HB HI HG Hn. cbv zeta.
    apply timely_app in HB. destruct HB as [H1 H2].
    split; intros Hr.
    + destruct (send_command_expires command timeout e s B1 B2 rest
                  U H1 H2 HI HG Hn Hr) as (s' & F' & E & Hh & _).
      rewrite E. split; [reflexivity | exact Hh].
    + destruct (send_command_breaks command timeout e s B1 B2 rest
                  U H1 H2 HI HG Hn Hr) as (s' & F' & E & Hh & _).
      rewrite E. split; [reflexivity | exact Hh].
  - intros command timeout e s future ok lines s' future' H.
    pose proof (send_command_cases _ _ _ _ _ _ _ _ _ H) as [HN C].
    split; [exact HN |].
    destruct C as [(pre' & t & _ & _ & _ & _ & Hl & _)
                  | [(_ & _ & Hl & _) | [(_ & _ & Hl & He) | (Hr & _ & Hl & _)]]];
      auto.
    left; congruence.
Qed.

Lemma C3_returned_lines_witness :
  usable fresh = true
  /\ breaks 0 10 unplugged
  /\ fst (fst (ATBNTester.send_command "AT+GMR" None false fresh
                 (turns gmr_part ++ turns quiet ++ unplugged)))
     = (false, [])
  /\ heard fresh
       (snd (fst (ATBNTester.send_command "AT+GMR" None false fresh
                    (turns gmr_part ++ turns quiet ++ unplugged))))
     = [lit "+GMR line"].
Proof.
  assert (U : usable fresh = true) by reflexivity.
  assert (K : breaks 0 10 unplugged) by (split; [cbn; lia | reflexivity]).
  assert (T : timely 0 10 (gmr_part ++ quiet)) by whole_lines.
  assert (I : idle quiet) by (repeat constructor).
  assert (G : Forall (fun b => goes_on false (text_of b))
                (arrivals gmr_part))
    by (repeat constructor; try no_token; discriminate).
  assert (L : (List.length (arrivals gmr_part) <= List.length quiet)%nat)
    by (vm_compute; lia).
  assert (X : texts_of (arrivals gmr_part) = [lit "+GMR line"])
    by (vm_compute; reflexivity).
  split; [exact U | split; [exact K |]].
  pose proof (proj1 (proj2 C3_returned_lines_are_the_received_lines)
                "AT+GMR"%string None false fresh gmr_part
                quiet unplugged U T I G L) as H.
  cbv zeta in H. destruct H as [_ H]. destruct (H K) as [E Hh].
  split; [exact E | rewrite Hh; exact X].
Defined.

(** C4, as the claim states it, fails: the link breaks after two lines of a
    download were collected, and the failure result carries none of them. *)
Lemma C4_partial_lines_lost_when_link_breaks :
  heard fresh (snd (fst run_unplugged_in_download))
    = [lit "+LEN:8,"; lit "+POST:4,abcd"]
  /\ fst (fst run_unplugged_in_download) = (false, []).
Proof. split; vm_compute; reflexivity. Qed.

(** C4, amended. A transaction of [send_command] that fails by the expiry
    of its deadline, or by an [ERROR] or [SEND FAIL] of the device, returns
    every line collected up to that point.  A transaction in which a port
    operation raises returns failure with an empty list. *)
Theorem C4_failure_results :
  forall command timeout e s future ok lines s' future',
    ATBNTester.send_command command timeout e s future
      = (ok, lines, s', future') ->
    (ends_with (Warning_Timeout command) (since s s') ->
       ok = false /\ lines = heard s s')
    /\ (forall pre t, heard s s' = pre ++ [t] ->
          t = lit "ERROR" \/ t = lit "SEND FAIL" ->
          ok = false /\ lines = pre ++ [t])
    /\ (ends_with (Error_Sending command) (since s s') ->
          ok = false /\ lines = []).
Proof.
  intros command timeout e s future ok lines s' future' H.
  pose proof (send_command_cases _ _ _ _ _ _ _ _ _ H) as [_ C].
  split; [| split].
  - intros [l0 E].
    destruct C as [(pre' & t & _ & _ & _ & _ & _ & He)
                  | [(_ & Hok & Hl & _) | [(_ & _ & _ & He) | (_ & _ & _ & He)]]];
      auto.
    + apply (ends_with_inj _ _ _ _ E) in He; discriminate He.
    + apply (ends_with_inj _ _ _ _ E) in He; discriminate He.
    + rewrite He in E; destruct l0 as [|? [|? ?]]; discriminate E.
  - intros pre t Hh Ht.
    assert (Tt : In t terminal_tokens)
      by (destruct Ht as [-> | ->]; simpl; auto).
    destruct (terminal_line_is_last command timeout e s future ok lines s'
                future' pre t [] H Hh Tt) as (_ & Hl & _ & Hf).
    split; [apply Hf; assumption | assumption].
  - intros [l0 E].
    destruct C as [(pre' & t & _ & _ & _ & _ & _ & He)
                  | [(_ & _ & _ & He) | [(_ & Hok & Hl & _) | (_ & Hok & Hl & _)]]];
      auto.
    + apply (ends_with_inj _ _ _ _ E) in He; discriminate He.
    + apply (ends_with_inj _ _ _ _ E) in He; discriminate He.
Qed.

Lemma C4_failure_results_witness :
  heard fresh (snd (fst run_rejected)) = [] ++ [lit "ERROR"]
  /\ (lit "ERROR" = lit "ERROR" \/ lit "ERROR" = lit "SEND FAIL")
  /\ fst (fst run_rejected) = (false, [] ++ [lit "ERROR"]).
Proof.
  set (r := run_rejected).
  assert (H0 : r = (fst (fst (fst r)), snd (fst (fst r)), snd (fst r), snd r))
    by (vm_compute; reflexivity).
  assert (H1 : heard fresh (snd (fst r)) = [] ++ [lit "ERROR"])
    by (vm_compute; reflexivity).
  assert (H2 : lit "ERROR" = lit "ERROR" \/ lit "ERROR" = lit "SEND FAIL")
    by (left; reflexivity).
  split; [exact H1 | split; [exact H2 |]].
  destruct (C4_failure_results "AT+FOO"%string None false fresh
              (deliver 100 [crlf "ERROR"]) _ _ _ _ H0) as (_ & Hd & _).
  destruct (Hd [] (lit "ERROR") H1 H2) as [Hok Hl].
  rewrite (surjective_pairing (fst (fst r))), Hok, Hl. reflexivity.
Defined.

(** C5, as the claim states it, fails: a transaction whose deadline passes
    in silence and a transaction whose link breaks return the same value,
    and only the log tells them apart. *)
Lemma C5_timeout_and_broken_link_return_the_same :
  fst (fst run_silent) = fst (fst run_unplugged)
  /\ ends_with (Warning_Timeout "AT") (since fresh (snd (fst run_silent)))
  /\ ends_with (Error_Sending "AT") (since fresh (snd (fst run_unplugged))).
Proof.
  split; [vm_compute; reflexivity | split].
  - exists [Info_Sent "AT"]; vm_compute; reflexivity.
  - exists [Info_Sent "AT"]; vm_compute; reflexivity.
Qed.

Lemma passes_not_terminal (e : bool) (rx : list pystr) :
  Forall (passes e) rx -> Forall (fun l => ~ In l terminal_tokens) rx.
Proof.
  intros HF; eapply Forall_impl; [| exact HF].
  intros l [_ Hs] Hin. apply (terminal_stops e) in Hin. congruence.
Qed.

(** C5, amended. [send_command] returns a success flag and the lines, with
    no separate outcome.  A transaction ended by its deadline returns
    failure with the lines received, none of which is a terminal token, so
    that it differs from a rejection by the device, whose last returned line
    is [ERROR] or [SEND FAIL] and which is never logged as a timeout.  A
    transaction in which a port operation raises returns failure with the
    empty list, the value a deadline passed in silence returns too. *)
Theorem C5_failure_causes_in_the_result :
  forall command timeout e s future ok lines s' future',
    ATBNTester.send_command command timeout e s future
      = (ok, lines, s', future') ->
    (ends_with (Warning_Timeout command) (since s s') ->
       ok = false /\ lines = heard s s' /\
       Forall (fun l => ~ In l terminal_tokens) lines)
    /\ (forall pre t, heard s s' = pre ++ [t] ->
          t = lit "ERROR" \/ t = lit "SEND FAIL" ->
          ok = false /\ lines = pre ++ [t] /\
          ~ ends_with (Warning_Timeout command) (since s s'))
    /\ (ends_with (Error_Sending command) (since s s') ->
          (ok, lines) = (false, [])).
Proof.
  intros command timeout e s future ok lines s' future' H.
  pose proof (send_command_cases _ _ _ _ _ _ _ _ _ H) as [_ C].
  split; [| split].
  - intros [l0 E].
    destruct C as [(pre' & t & _ & _ & _ & _ & _ & He)
                  | [(HF & Hok & Hl & _) | [(_ & _ & _ & He) | (_ & _ & _ & He)]]].
    + apply (ends_with_inj _ _ _ _ E) in He; discriminate He.
    + repeat split; auto.
      rewrite Hl. eapply passes_not_terminal; eauto.
    + apply (ends_with_inj _ _ _ _ E) in He; discriminate He.
    + rewrite He in E; destruct l0 as [|? [|? ?]]; discriminate E.
  - intros pre t Hh Htok.
    assert (Tt : In t terminal_tokens)
      by (destruct Htok as [-> | ->]; simpl; auto).
    destruct (terminal_line_is_last command timeout e s future ok lines s'
                future' pre t [] H Hh Tt) as (_ & Hl & _ & Hf).
    split; [apply Hf; assumption | split; [assumption |]].
    intros [l0 E].
    destruct C as [(pre' & t' & _ & _ & _ & _ & _ & He)
                  | [(HF & _) | [(_ & _ & _ & He) | (_ & _ & _ & He)]]].
    + apply (ends_with_inj _ _ _ _ E) in He; discriminate He.
    + apply passes_not_terminal in HF. rewrite Hh in HF.
      apply Forall_app in HF. destruct HF as [_ HF].
      inversion HF; contradiction.
    + apply (ends_with_inj _ _ _ _ E) in He; discriminate He.
    + rewrite He in E; destruct l0 as [|? [|? ?]]; discriminate E.
  - intros [l0 E].
    destruct C as [(pre' & t & _ & _ & _ & _ & _ & He)
                  | [(_ & _ & _ & He) | [(_ & Hok & Hl & _) | (_ & Hok & Hl & _)]]];
      try congruence.
    + apply (ends_with_inj _ _ _ _ E) in He; discriminate He.
    + apply (ends_with_inj _ _ _ _ E) in He; discriminate He.
Qed.

Lemma C5_failure_causes_witness :
  ends_with (Warning_Timeout "AT+GMR") (since fresh (snd (fst run_partial)))
  /\ fst (fst run_partial) = (false, [lit "+GMR line"]).
Proof.
  set (r := run_partial).
  assert (H0 : r = (fst (fst (fst r)), snd (fst (fst r)), snd (fst r), snd r))
    by (vm_compute; reflexivity).
  assert (H1 : ends_with (Warning_Timeout "AT+GMR")
                 (since fresh (snd (fst r))))
    by (exists [Info_Sent "AT+GMR"; Info_Received (lit "+GMR line")];
        vm_compute; reflexivity).
  split; [exact H1 |].
  destruct (C5_failure_causes_in_the_result "AT+GMR"%string None false fresh
              (deliver 100 [crlf "+GMR line"] ++ [mkTick 10000 [] false])
              _ _ _ _ H0) as (Ht & _ & _).
  destruct (Ht H1) as (Hok & Hl & _).
  rewrite (surjective_pairing (fst (fst r))), Hok, Hl.
  vm_compute; reflexivity.
Defined.

End Returned.

(** ** The timeout budget *)

Section TimeoutBudget.
Import Timeout.

(** C6. [calculate_timeout_ms] is a function of the byte count: [0] maps to
    300000 ms, and every other count [n], every positive one in particular,
    to [max 300000 (min 3600000 (60000 + n * 2000 / 51200))] with the
    floor division of Python; [1 << 20] maps to the minimum 300000 ms and
    [1 << 30] to the maximum 3600000 ms. *)
Theorem C6_calculate_timeout_ms_formula :
  (forall n : Z,
      calculate_timeout_ms n =
      if n =? 0 then 300000
      else Z.max 300000 (Z.min 3600000 (60000 + n * 2000 / 51200)))
  /\ calculate_timeout_ms 0 = 300000
  /\ calculate_timeout_ms (Z.shiftl 1 20) = 300000
  /\ calculate_timeout_ms (Z.shiftl 1 30) = 3600000.
Proof.
  split; [| repeat split; reflexivity].
  intros n; unfold calculate_timeout_ms.
  destruct (n =? 0); [reflexivity |].
  change (50 * 1024) with 51200.
  cbv zeta.
  generalize (n * 2000 / 51200); intros q.
  destruct (Z.ltb_spec (60000 + q) 300000) as [H1 | H1].
  - destruct (Z.ltb_spec 3600000 300000); lia.
  - destruct (Z.ltb_spec 3600000 (60000 + q)); lia.
Qed.

End TimeoutBudget.

(** ** Stale input *)

Section StaleInput.

Lemma send_command_forgets_rxbuf command timeout e s future stale :
  let r := ATBNTester.send_command command timeout e (set_rxbuf stale s)
             future in
  let r0 := ATBNTester.send_command command timeout e (set_rxbuf [] s)
              future in
  fst (fst r) = fst (fst r0) /\ log (snd (fst r)) = log (snd (fst r0))
  /\ snd r = snd r0
  /\ txlog (snd (fst r)) = txlog (snd (fst r0)).
Proof.
  unfold ATBNTester.send_command.
  cbn [set_rxbuf connected is_open link_up self_timeout].
  destruct (negb (connected s) || negb (is_open s));
    [repeat split; reflexivity |].
  destruct (link_up s); [| repeat split; reflexivity].
  change (reset_input_buffer (set_rxbuf stale s))
    with (reset_input_buffer (set_rxbuf [] s)).
  repeat split; reflexivity.
Qed.

(** C8. [ATBNTester.send_command] empties the input buffer before it writes
    the command: its result, what it logs, what it writes and what it leaves
    of the script are the same whatever unread bytes the buffer held.
    [PerformanceTester.send_at_command] and
    [SimpleATTester.send_at_command] write the command without emptying the
    buffer: after a command whose [OK] came too late, the next command,
    which the device rejects with [ERROR], is reported as a success on the
    stale [OK]. *)
Theorem C8_stale_input_before_a_command :
  (forall command timeout e s future stale,
      let r := ATBNTester.send_command command timeout e (set_rxbuf stale s)
                 future in
      let r0 := ATBNTester.send_command command timeout e (set_rxbuf [] s)
                  future in
      fst (fst r) = fst (fst r0) /\ log (snd (fst r)) = log (snd (fst r0))
      /\ snd r = snd r0 /\ txlog (snd (fst r)) = txlog (snd (fst r0)))
  /\ rxbuf (snd (fst atbn_slow)) = crlf "OK"
  /\ fst (fst atbn_next) = (false, [lit "ERROR"])
  /\ rxbuf (snd (fst perf_slow)) = crlf "OK"
  /\ fst (fst perf_next) = Value (true, lit "OK", 100)
  /\ rxbuf (snd (fst simple_slow)) = crlf "OK"
  /\ fst (fst simple_next) = Value (true, lit "OK").
Proof.
  split; [exact send_command_forgets_rxbuf |].
  repeat split; vm_compute; reflexivity.
Qed.

End StaleInput.

(** ** Decoding and trimming a line *)

Module Decoding.
Import Utf8.














































End Decoding.

(** ** Matching the frame markers *)

Module Matching.
Import Re.

Section OnePattern.

(** The pattern [pre(\d+)suf], whose literals hold no newline. *)
Variables pre suf : pystr.
Hypothesis pre_no_newline : ~ In 10 pre.
Hypothesis suf_no_newline : ~ In 10 suf.
Hypothesis pre_not_empty : pre <> [].

Lemma strip_prefix_newline (p : pystr) :
  ~ In 10 p ->
  forall s t,
    strip_prefix p (s ++ 10 :: t)
    = option_map (fun r => r ++ 10 :: t) (strip_prefix p s).
Proof.
  induction p as [|c p IH]; intros Hp s t; [reflexivity |].
  assert (Hc : c <> 10) by (intros ->; apply Hp; left; reflexivity).
  assert (Hp' : ~ In 10 p) by (intros H; apply Hp; right; exact H).
  destruct s as [|d s]; simpl.
  - destruct (Z.eqb_spec c 10); [contradiction | reflexivity].
  - destruct (c =? d); [apply IH; exact Hp' | reflexivity].
Qed.










Lemma join_cons (l l' : pystr) (rest : list pystr) :
  join newline (l :: l' :: rest) = l ++ 10 :: join newline (l' :: rest).
Proof. reflexivity. Qed.







(** The second literal starts with a character that is no digit. *)
Hypothesis suf_starts_no_digit :
  match suf with [] => False | c :: _ => is_digit c = false end.




End OnePattern.

End Matching.

(** ** The download frame of a response *)

Section Frames.
Import Re DownloadFrame Matching.










End Frames.

(** * Further properties of the code *)

(** ** The timeout budget, continued *)

Section TimeoutShape.
Import Timeout.

Lemma calculate_timeout_ms_clamp (n : Z) :
  calculate_timeout_ms n =
  if n =? 0 then 300000
  else Z.max 300000 (Z.min 3600000 (60000 + n * 2000 / 51200)).
Proof.
  unfold calculate_timeout_ms.
  destruct (n =? 0); [reflexivity |].
  change (50 * 1024) with 51200. cbv zeta.
  generalize (n * 2000 / 51200); intros q.
  destruct (Z.ltb_spec (60000 + q) 300000) as [H1 | H1].
  - destruct (Z.ltb_spec 3600000 300000); lia.
  - destruct (Z.ltb_spec 3600000 (60000 + q)); lia.
Qed.

(** X1. Whatever the content length, negative ones included, the timeout is
    between five minutes and one hour. *)
Theorem X1_timeout_within_bounds (n : Z) :
  300000 <= calculate_timeout_ms n <= 3600000.
Proof.
  rewrite calculate_timeout_ms_clamp. destruct (n =? 0); lia.
Qed.

(** X2. A larger content never gets a shorter timeout. *)
Theorem X2_timeout_monotone (n m : Z) :
  n <= m -> calculate_timeout_ms n <= calculate_timeout_ms m.
Proof.
  intros H. rewrite !calculate_timeout_ms_clamp.
  assert (Q : n * 2000 / 51200 <= m * 2000 / 51200)
    by (apply Z.div_le_mono; lia).
  destruct (Z.eqb_spec n 0) as [-> | Hn], (Z.eqb_spec m 0) as [-> | Hm];
    try lia.
  assert (n * 2000 / 51200 <= 0) by (apply Z.div_le_upper_bound; lia).
  lia.
Qed.

Lemma X2_timeout_monotone_witness :
  1024 <= 1073741824
  /\ calculate_timeout_ms 1024 <= calculate_timeout_ms 1073741824.
Proof.
  assert (H : 1024 <= 1073741824) by lia.
  split; [exact H | exact (X2_timeout_monotone 1024 1073741824 H)].
Defined.

(** X3. The timeout is the minimum of five minutes exactly for content
    lengths up to 6144025 bytes, and the maximum of one hour exactly from
    90624000 bytes on. *)
Theorem X3_timeout_thresholds (n : Z) :
  (calculate_timeout_ms n = 300000 <-> n <= 6144025)
  /\ (calculate_timeout_ms n = 3600000 <-> 90624000 <= n).
Proof.
  rewrite calculate_timeout_ms_clamp.
  destruct (Z.eqb_spec n 0) as [-> | Hn]; [lia |].
  pose proof (Z.div_le_lower_bound (n * 2000) 51200 3540000) as L1.
  pose proof (Z.div_lt_upper_bound (n * 2000) 51200 3540000) as U1.
  pose proof (Z.div_le_lower_bound (n * 2000) 51200 240001) as L2.
  pose proof (Z.div_lt_upper_bound (n * 2000) 51200 240001) as U2.
  split; split; intros H.
  - destruct (Z.le_gt_cases n 6144025) as [G | G]; [exact G |].
    assert (240001 <= n * 2000 / 51200) by (apply L2; lia). lia.
  - assert (n * 2000 / 51200 < 240001) by (apply U2; lia). lia.
  - destruct (Z.le_gt_cases 90624000 n) as [G | G]; [exact G |].
    assert (n * 2000 / 51200 < 3540000) by (apply U1; lia). lia.
  - assert (3540000 <= n * 2000 / 51200) by (apply L1; lia). lia.
Qed.

End TimeoutShape.

(** ** What a transaction leaves of the port *)

Module Frame.
Import Engine.

Local Opaque str_in str_eqb.

(** The loop writes nothing, leaves the tester as it is, reads the script
    in order, and returns only while the link is up. *)
Lemma collect_frame e st tmo :
  forall future lines s ex s' fut',
    ATBNTester.collect e st tmo lines future s = (ex, s', fut') ->
    txlog s' = txlog s /\ connected s' = connected s
    /\ is_open s' = is_open s /\ self_timeout s' = self_timeout s
    /\ (exists used, future = used ++ fut')
    /\ (forall v, ex = Returned v -> link_up s' = true).
Proof.
  induction future as [|tk future IH]; intros lines s ex s' fut' H.
  - injection H as <- <- <-. repeat split; try reflexivity.
    + exists []; reflexivity.
    + intros v Hv; discriminate Hv.
  - cbn [ATBNTester.collect] in H.
    assert (K : forall l s1 ex1 s1' f1,
               ATBNTester.collect e st tmo l future s1 = (ex1, s1', f1) ->
               txlog s1 = txlog s -> connected s1 = connected s ->
               is_open s1 = is_open s -> self_timeout s1 = self_timeout s ->
               txlog s1' = txlog s /\ connected s1' = connected s
               /\ is_open s1' = is_open s
               /\ self_timeout s1' = self_timeout s
               /\ (exists used, tk :: future = used ++ f1)
               /\ (forall v, ex1 = Returned v -> link_up s1' = true)).
    { intros l s1 ex1 s1' f1 E A B C D.
      destruct (IH _ _ _ _ _ E) as (A' & B' & C' & D' & [used U] & R).
      repeat split; try congruence; [| exact R].
      exists (tk :: used); rewrite U; reflexivity. }
    assert (Stop : exists used, tk :: future = used ++ future)
      by (exists [tk]; reflexivity).
    destruct (now (arrive tk s) - st <? 1000 * tmo);
      [| injection H as <- <- <-; repeat split; try reflexivity;
         [exact Stop | intros v Hv; discriminate Hv]].
    destruct (link_up (arrive tk s)) eqn:L;
      [| injection H as <- <- <-; repeat split; try reflexivity;
         [exact Stop | intros v Hv; discriminate Hv]].
    destruct (0 <? Z.of_nat (List.length (rxbuf (arrive tk s))));
      [| eapply K; eauto].
    destruct (readline (rxbuf (arrive tk s))) as [raw rest].
    destruct (strip (Utf8.decode raw)) as [|c line'];
      [eapply K; eauto |].
    destruct (e && str_eqb (c :: line') prompt);
      [injection H as <- <- <-; repeat split; try reflexivity;
       [exact Stop | intros v _; exact L] |].
    destruct (str_in (c :: line') terminal_tokens);
      [injection H as <- <- <-; repeat split; try reflexivity;
       [exact Stop | intros v _; exact L] |].
    eapply K; eauto.
Qed.

Local Transparent str_in str_eqb.

(** What a call of [send_command] leaves of the port. *)
Lemma send_command_frame :
  forall command timeout e s future ok lines s' future',
    ATBNTester.send_command command timeout e s future
      = (ok, lines, s', future') ->
    txlog s' = (if usable s then txlog s ++ wire command else txlog s)
    /\ connected s' = connected s /\ is_open s' = is_open s
    /\ self_timeout s' = self_timeout s
    /\ (exists used, future = used ++ future')
    /\ (ok = true -> usable s' = true).
Proof.
  intros command timeout e s future ok lines s' future' H.
  unfold ATBNTester.send_command in H. unfold usable.
  assert (Stop : exists used : list tick, future = used ++ future)
    by (exists []; reflexivity).
  destruct (connected s) eqn:C; cbn [negb orb andb] in *;
    [| injection H as <- <- <- <-; repeat split; auto; discriminate].
  destruct (is_open s) eqn:O; cbn [negb orb andb] in *;
    [| injection H as <- <- <- <-; repeat split; auto; discriminate].
  destruct (link_up s) eqn:L;
    [| injection H as <- <- <- <-; repeat split; auto; discriminate].
  match type of H with
  | context [ATBNTester.collect ?a ?b ?c ?d ?f ?g] =>
    destruct (ATBNTester.collect a b c d f g) as [[ex s1] f1] eqn:E
  end.
  apply collect_frame in E.
  destruct E as (A & B & D & T & U & R). cbn in A, B, D, T.
  destruct ex as [[ok' ls] | ls |]; injection H as <- <- <- <-;
    cbn; repeat split; auto; try congruence; try discriminate.
  intros _. rewrite B, D, C, O. apply (R (ok', ls)). reflexivity.
Qed.

(** X4. [send_command] writes the command followed by CR LF, once and
    before anything else, when the connection is open and the link is up,
    and writes nothing otherwise, whatever the outcome of the transaction.
    It leaves the connection and the default timeout as they were and
    consumes the turns of the script in order.  After a success the port is
    still usable. *)
Theorem X4_send_command_writes_the_command_once :
  forall command timeout e s future ok lines s' future',
    ATBNTester.send_command command timeout e s future
      = (ok, lines, s', future') ->
    txlog s' = (if usable s then txlog s ++ wire command else txlog s)
    /\ connected s' = connected s /\ is_open s' = is_open s
    /\ self_timeout s' = self_timeout s
    /\ (exists used, future = used ++ future')
    /\ (ok = true -> usable s' = true).
Proof.
  intros command timeout e s future ok lines s' future' H.
  pose proof (send_command_frame _ _ _ _ _ _ _ _ _ H)
    as (W & C & O & T & U & R).
  split; [exact W | split; [exact C | split; [exact O |]]].
  split; [exact T | split; [exact U | exact R]].
Qed.

Lemma X4_send_command_writes_witness :
  txlog (snd (fst run_gmr)) = wire "AT+GMR"
  /\ snd run_gmr = [].
Proof.
  assert (H0 : run_gmr = (fst (fst (fst run_gmr)), snd (fst (fst run_gmr)),
                          snd (fst run_gmr), snd run_gmr))
    by (vm_compute; reflexivity).
  destruct (X4_send_command_writes_the_command_once "AT+GMR"%string None
              false fresh (deliver 100 [crlf "+GMR line"; crlf "OK"])
              _ _ _ _ H0) as (Hw & _).
  split; [rewrite Hw; reflexivity | vm_compute; reflexivity].
Defined.

End Frame.

(** ** The data phase *)

Module DataPhase.
Import Engine Frame.

(** The loop of [send_data] is the loop of [send_command] with no prompt
    expected. *)
Lemma data_loop_collect st tmo :
  forall future lines s,
    data_loop st tmo lines future s
    = ATBNTester.collect false st tmo lines future s.
Proof.
  induction future as [|tk future IH]; intros lines s; [reflexivity |].
  cbn [data_loop ATBNTester.collect andb].
  destruct (now (arrive tk s) - st <? 1000 * tmo); [| reflexivity].
  destruct (link_up (arrive tk s)); [| reflexivity].
  destruct (0 <? Z.of_nat (List.length (rxbuf (arrive tk s))));
    [| apply IH].
  destruct (readline (rxbuf (arrive tk s))) as [raw rest].
  destruct (strip (Utf8.decode raw)) as [|c line']; [apply IH |].
  destruct (str_in (c :: line') terminal_tokens); [reflexivity | apply IH].
Qed.

Lemma collected_shape e lines0 ex rx :
  collected e lines0 ex rx ->
  (exists pre t, rx = pre ++ [t] /\ Forall (passes e) pre /\
      stops e t = true /\ ex = Returned (verdict e t, lines0 ++ rx))
  \/ (Forall (passes e) rx /\ (ex = Expired (lines0 ++ rx) \/ ex = Raised)).
Proof.
  intros H; inversion H; subst.
  - left; exists pre, t; auto.
  - right; auto.
  - right; auto.
Qed.

(** What [send_data] does, read off its loop. *)
Lemma send_data_run data timeout ss future :
  send_data data timeout (ss, future) =
  if negb (connected (port ss)) || negb (is_open (port ss)) then
    ((false, []),
     (mkSession (logging Error_NotEstablished (port ss)) (notes ss), future))
  else if link_up (port ss) then
    let s0 := write data (port ss) in
    let n0 := notes ss ++ [(List.length (log (port ss)),
                            Info_SentBytes (Z.of_nat (List.length data)))] in
    match ATBNTester.collect false (now s0)
            (py_or timeout (self_timeout (port ss))) [] future s0 with
    | (Returned v, s, f) => (v, (mkSession s n0, f))
    | (Expired ls, s, f) =>
      ((false, ls),
       (mkSession s (n0 ++ [(List.length (log s),
                             Warning "Data send timeout")]), f))
    | (Raised, s, f) =>
      ((false, []),
       (mkSession s (n0 ++ [(List.length (log s), Error_SendingData)]), f))
    end
  else
    ((false, []),
     (mkSession (port ss)
        (notes ss ++ [(List.length (log (port ss)), Error_SendingData)]),
      future)).
Proof.
  unfold send_data, bind, ret, get_port, update, take_note, on_port.
  cbn [fst snd port notes].
  destruct (negb (connected (port ss)) || negb (is_open (port ss)));
    [reflexivity |].
  destruct (link_up (port ss)); [| reflexivity].
  cbn [fst snd port notes]. rewrite data_loop_collect.
  destruct (ATBNTester.collect false (now (write data (port ss)))
              (py_or timeout (self_timeout (port ss))) [] future
              (write data (port ss))) as [[ex s1] f1].
  destruct ex as [v | ls |]; reflexivity.
Qed.

(** X5. In the data phase, as in the command phase, a received terminal
    token is the last line received: [send_data] returns at it with the
    lines received, and succeeds exactly for [OK] and [SEND OK]. *)
Theorem X5_send_data_ends_at_a_terminal_token :
  forall data timeout ss future ok lines ss' future' pre t post,
    send_data data timeout (ss, future) = ((ok, lines), (ss', future')) ->
    heard (port ss) (port ss') = pre ++ t :: post ->
    In t terminal_tokens ->
    post = [] /\ lines = pre ++ [t] /\
    (ok = true <-> t = lit "OK" \/ t = lit "SEND OK") /\
    (ok = false <-> t = lit "ERROR" \/ t = lit "SEND FAIL").
Proof.
  intros data timeout ss future ok lines ss' future' pre t post H Hh Ht.
  rewrite send_data_run in H.
  pose proof (stopper_not_passes false t (terminal_stops false t Ht)) as Hn.
  destruct (negb (connected (port ss)) || negb (is_open (port ss))).
  { injection H as _ _ <- _. cbn [port] in Hh.
    unfold heard in Hh.
    rewrite (since_app _ _ [Error_NotEstablished]) in Hh
      by apply log_logging.
    destruct pre; discriminate Hh. }
  destruct (link_up (port ss)).
  2:{ injection H as _ _ <- _. cbn [port] in Hh.
      unfold heard in Hh. rewrite (since_app _ _ []) in Hh
        by (rewrite app_nil_r; reflexivity).
      destruct pre; discriminate Hh. }
  cbv zeta in H.
  destruct (ATBNTester.collect false (now (write data (port ss)))
              (py_or timeout (self_timeout (port ss))) [] future
              (write data (port ss))) as [[ex s1] f1] eqn:E.
  apply collect_collected in E. destruct E as [rx [Hl Hc]].
  rewrite log_write in Hl.
  assert (Hrx : heard (port ss) s1 = rx).
  { unfold heard. rewrite (since_app _ _ _ Hl). apply received_Info0. }
  apply collected_shape in Hc. cbn [app] in Hc.
  destruct Hc as [(pre' & t' & Er & HF & _ & Ex) | (HF & [Ex | Ex])];
    subst ex; injection H as <- <- <- <-; cbn [port] in Hh;
    rewrite Hrx in Hh.
  - rewrite Er in Hh. symmetry in Hh.
    destruct (last_stopper _ _ _ _ _ _ HF Hn Hh) as [-> [-> ->]].
    rewrite (verdict_terminal false _ Ht).
    split; [reflexivity | split; [exact Er |]].
    apply success_terminal; assumption.
  - exfalso; eapply no_stopper; eauto.
  - exfalso; eapply no_stopper; eauto.
Qed.

Lemma X5_send_data_witness :
  heard (port opening) (port (fst (snd run_send_data)))
    = [lit "+LEN:2,"; lit "+POST:2,{}"] ++ lit "SEND OK" :: []
  /\ In (lit "SEND OK") terminal_tokens
  /\ fst (fst run_send_data) = true.
Proof.
  set (r := run_send_data).
  assert (H0 : r = ((fst (fst r), snd (fst r)), (fst (snd r), snd (snd r))))
    by (vm_compute; reflexivity).
  assert (H1 : heard (port opening) (port (fst (snd r)))
               = [lit "+LEN:2,"; lit "+POST:2,{}"] ++ lit "SEND OK" :: [])
    by (vm_compute; reflexivity).
  assert (H2 : In (lit "SEND OK") terminal_tokens)
    by (right; right; left; reflexivity).
  split; [exact H1 | split; [exact H2 |]].
  destruct (X5_send_data_ends_at_a_terminal_token _ _ _ _ _ _ _ _ _ _ _
              H0 H1 H2) as (_ & _ & Hok & _).
  apply Hok. right; reflexivity.
Defined.

(** What a call of [send_data] leaves of the port. *)
Lemma send_data_frame :
  forall data timeout ss future r ss' future',
    send_data data timeout (ss, future) = (r, (ss', future')) ->
    txlog (port ss')
    = (if usable (port ss) then txlog (port ss) ++ data
       else txlog (port ss))
    /\ (exists used, future = used ++ future').
Proof.
  intros data timeout ss future r ss' future' H.
  rewrite send_data_run in H. unfold usable.
  assert (Stop : exists used : list tick, future = used ++ future)
    by (exists []; reflexivity).
  destruct (connected (port ss)); cbn [negb orb andb] in *;
    [| injection H as _ <- <-; split; [reflexivity | exact Stop]].
  destruct (is_open (port ss)); cbn [negb orb andb] in *;
    [| injection H as _ <- <-; split; [reflexivity | exact Stop]].
  destruct (link_up (port ss));
    [| injection H as _ <- <-; split; [reflexivity | exact Stop]].
  cbv zeta in H.
  destruct (ATBNTester.collect false (now (write data (port ss)))
              (py_or timeout (self_timeout (port ss))) [] future
              (write data (port ss))) as [[ex s1] f1] eqn:E.
  apply collect_frame in E. destruct E as (A & _ & _ & _ & U & _).
  destruct ex as [v | ls |]; injection H as _ <- <-; cbn [port];
    (split; [rewrite A; reflexivity | exact U]).
Qed.

(** X6. [send_data] writes the data bytes as they are, with no terminator,
    when the connection is open and the link is up, and writes nothing
    otherwise; it consumes the turns of the script in order. *)
Theorem X6_send_data_writes_the_raw_bytes :
  forall data timeout ss future r ss' future',
    send_data data timeout (ss, future) = (r, (ss', future')) ->
    txlog (port ss')
    = (if usable (port ss) then txlog (port ss) ++ data
       else txlog (port ss))
    /\ (exists used, future = used ++ future').
Proof.
  intros data timeout ss future r ss' future' H.
  pose proof (send_data_frame _ _ _ _ _ _ _ H) as [W U].
  split; [exact W | exact U].
Qed.

Lemma X6_send_data_writes_witness :
  txlog (port (fst (snd run_send_data))) = list_byte_of_string "abcdefgh".
Proof.
  set (r := run_send_data).
  assert (H0 : r = (fst r, (fst (snd r), snd (snd r))))
    by (vm_compute; reflexivity).
  destruct (X6_send_data_writes_the_raw_bytes _ _ _ _ _ _ _ H0) as [Hw _].
  rewrite Hw. reflexivity.
Defined.

(** X7. [send_data] does not empty the input buffer: on a usable port the
    bytes left unread by the previous call are read first, exactly as if
    they had arrived in the first turn of the data phase. *)
Theorem X7_send_data_keeps_unread_input :
  forall data timeout s ns tk future stale,
    usable s = true ->
    send_data data timeout (mkSession (set_rxbuf stale s) ns, tk :: future)
    = send_data data timeout
        (mkSession (set_rxbuf [] s) ns,
         mkTick (t_clock tk) (stale ++ t_arrived tk) (t_drop tk) :: future).
Proof.
  intros data timeout s ns tk future stale U.
  unfold usable in U. apply andb_true_iff in U. destruct U as [U L].
  apply andb_true_iff in U. destruct U as [C O].
  rewrite !send_data_run. cbn [port notes set_rxbuf connected is_open
                               link_up self_timeout log].
  rewrite C, O, L. cbn [negb orb]. cbv zeta.
  cbn [ATBNTester.collect]. reflexivity.
Qed.

Lemma X7_send_data_keeps_witness :
  usable fresh = true
  /\ fst (send_data [] None
            (mkSession (set_rxbuf (crlf "SEND OK") fresh) [],
             [mkTick 100 [] false]))
     = (true, [lit "SEND OK"]).
Proof.
  assert (U : usable fresh = true) by reflexivity.
  split; [exact U |].
  rewrite (X7_send_data_keeps_unread_input [] None fresh []
             (mkTick 100 [] false) [] (crlf "SEND OK") U).
  vm_compute. reflexivity.
Defined.

End DataPhase.

(** ** The callers of the engine *)

Module Callers.
Import Engine Frame DataPhase.

(** A successful [send_command] ended on the prompt it expected or on a
    success token, which is its last returned line. *)
Lemma success_shape command timeout e s future lines s' future' :
  ATBNTester.send_command command timeout e s future
    = (true, lines, s', future') ->
  exists pre t, lines = pre ++ [t] /\ heard s s' = lines /\
    ((e = true /\ t = prompt) \/ t = lit "OK" \/ t = lit "SEND OK").
Proof.
  intros H.
  pose proof (send_command_cases _ _ _ _ _ _ _ _ _ H) as [_ C].
  destruct C as [(pre & t & Hr & _ & Hs & Hv & Hl & _)
                | [(_ & Hf & _) | [(_ & Hf & _) | (_ & Hf & _)]]];
    try discriminate Hf.
  exists pre, t. rewrite Hl. split; [exact Hr | split; [reflexivity |]].
  unfold verdict in Hv. unfold stops in Hs.
  destruct (e && str_eqb t prompt) eqn:Ep.
  - apply andb_true_iff in Ep. destruct Ep as [-> Ep].
    apply str_eqb_eq in Ep. left; auto.
  - cbn [orb] in Hs. apply str_in_In in Hs.
    right. apply (success_terminal t Hs). symmetry; exact Hv.
Qed.

(** With the prompt expected, a call that received it succeeded, and the
    prompt is its last returned line. *)
Lemma prompt_heard command timeout s future ok lines s' future' :
  ATBNTester.send_command command timeout true s future
    = (ok, lines, s', future') ->
  In prompt (heard s s') ->
  ok = true /\ exists pre, lines = pre ++ [prompt].
Proof.
  intros H Hin. apply in_split in Hin. destruct Hin as (pre & post & Hh).
  pose proof (send_command_cases _ _ _ _ _ _ _ _ _ H) as [_ C].
  assert (Hn : ~ passes true prompt)
    by (apply stopper_not_passes; reflexivity).
  destruct C as [(pre' & t & Hr & HF & _ & Hok & Hl & _)
                | [(HF & _) | [(HF & _) | (Hr & _)]]].
  - rewrite Hr in Hh. symmetry in Hh.
    destruct (last_stopper _ _ _ _ _ _ HF Hn Hh) as [-> [-> Ht]].
    subst t ok lines. split; [reflexivity |].
    exists pre'; exact Hr.
  - exfalso; eapply no_stopper; eauto.
  - exfalso; eapply no_stopper; eauto.
  - rewrite Hr in Hh; destruct pre; discriminate Hh.
Qed.

Lemma any_contains_last (sub : pystr) (pre : list pystr) (t : pystr) :
  contains sub t = true -> any_contains sub (pre ++ [t]) = true.
Proof.
  intros H. unfold any_contains. rewrite existsb_app. simpl.
  rewrite H. rewrite orb_true_r. reflexivity.
Qed.

(** X8. In [test_post_with_content_type] and [test_post_uart_to_uart] on a
    usable port, the bytes on the wire are the command and, when the device
    answered with the prompt, the payload right after it; when the command
    transaction fails, by [ERROR], [SEND FAIL], deadline or exception, only
    the command is written, no payload follows, and the test fails. *)
Theorem X8_payload_is_written_after_the_prompt :
  forall post ss future,
    usable (port ss) = true ->
    (let '(ok1, _, s1, _) :=
       ATBNTester.send_command (post_text_command post) None true (port ss)
         future in
     let '(res, (ss', _)) :=
       test_post_with_content_type true post (ss, future) in
     (In prompt (heard (port ss) s1) ->
        txlog (port ss')
        = txlog (port ss) ++ wire (post_text_command post)
            ++ list_byte_of_string "hello-from-esp32!!")
     /\ (ok1 = false ->
           res = Finished false /\
           txlog (port ss')
           = txlog (port ss) ++ wire (post_text_command post)))
    /\
    (let '(ok1, _, s1, _) :=
       ATBNTester.send_command (post_command post) None true (port ss)
         future in
     let '(res, (ss', _)) :=
       test_post_uart_to_uart true post (ss, future) in
     (In prompt (heard (port ss) s1) ->
        txlog (port ss')
        = txlog (port ss) ++ wire (post_command post)
            ++ list_byte_of_string "abcdefgh")
     /\ (ok1 = false ->
           res = Finished false /\
           txlog (port ss')
           = txlog (port ss) ++ wire (post_command post))).
Proof.
  intros post ss future U. split.
  - unfold test_post_with_content_type, Session.send_command, bind, ret,
      take_note, on_port. cbn [negb fst snd port notes].
    destruct (ATBNTester.send_command (post_text_command post) None true
                (port ss) future) as [[[ok1 lines1] s1] f1] eqn:E.
    pose proof (send_command_frame _ _ _ _ _ _ _ _ _ E)
      as (W & _ & _ & _ & _ & R).
    rewrite U in W.
    assert (P : In prompt (heard (port ss) s1) ->
                ok1 && any_contains (lit ">") lines1 = true).
    { intros Hin.
      destruct (prompt_heard _ _ _ _ _ _ _ _ E Hin) as [-> [pre ->]].
      apply any_contains_last. reflexivity. }
    destruct (ok1 && any_contains (lit ">") lines1) eqn:Cnd.
    + apply andb_true_iff in Cnd. destruct Cnd as [-> _].
      match goal with
      | |- context [send_data ?d ?t ?w] =>
        destruct (send_data d t w) as [[ok2 l2] [ss2 f2]] eqn:E2
      end.
      apply send_data_frame in E2. destruct E2 as [W2 _].
      cbn [port] in W2. rewrite (R eq_refl) in W2.
      split; [intros _; rewrite W2, W, <- app_assoc; reflexivity |].
      intros Hf; discriminate Hf.
    + cbn [port]. split; [intros Hin; discriminate (P Hin) |].
      intros _. split; [reflexivity | exact W].
  - unfold test_post_uart_to_uart, Session.send_command, bind, ret,
      take_note, on_port. cbn [negb fst snd port notes].
    destruct (ATBNTester.send_command (post_command post) None true
                (port ss) future) as [[[ok1 lines1] s1] f1] eqn:E.
    pose proof (send_command_frame _ _ _ _ _ _ _ _ _ E)
      as (W & _ & _ & _ & _ & R).
    rewrite U in W.
    assert (P : In prompt (heard (port ss) s1) ->
                ok1 && any_contains (lit ">") lines1 = true).
    { intros Hin.
      destruct (prompt_heard _ _ _ _ _ _ _ _ E Hin) as [-> [pre ->]].
      apply any_contains_last. reflexivity. }
    destruct (ok1 && any_contains (lit ">") lines1) eqn:Cnd.
    + apply andb_true_iff in Cnd. destruct Cnd as [-> _].
      match goal with
      | |- context [send_data ?d ?t ?w] =>
        destruct (send_data d t w) as [[ok2 l2] [ss2 f2]] eqn:E2
      end.
      apply send_data_frame in E2. destruct E2 as [W2 _].
      cbn [port] in W2. rewrite (R eq_refl) in W2.
      destruct ok2; cbn [port];
        (split; [intros _; rewrite W2, W, <- app_assoc; reflexivity |];
         intros Hf; discriminate Hf).
    + cbn [port]. split; [intros Hin; discriminate (P Hin) |].
      intros _. split; [reflexivity | exact W].
Qed.

Lemma X8_payload_witness :
  usable (port opening) = true
  /\ txlog (port (fst (snd run_post_text)))
     = wire (post_text_command "http://x/p")
         ++ list_byte_of_string "hello-from-esp32!!".
Proof.
  assert (U : usable (port opening) = true) by reflexivity.
  split; [exact U |].
  assert (K : In prompt
                (heard (port opening)
                   (snd (fst (ATBNTester.send_command
                                (post_text_command "http://x/p") None true
                                (port opening) post_script)))))
    by (left; vm_compute; reflexivity).
  pose proof (X8_payload_is_written_after_the_prompt
                "http://x/p"%string opening post_script U) as H.
  destruct H as [H _]. unfold run_post_text.
  destruct (ATBNTester.send_command (post_text_command "http://x/p") None
              true (port opening) post_script) as [[[ok1 l1] s1] f1].
  destruct (test_post_with_content_type true "http://x/p"
              (opening, post_script)) as [res [ss' f']].
  cbn [fst snd] in *. destruct H as [Ha _].
  rewrite (Ha K). vm_compute. reflexivity.
Defined.

(** X9. [test_basic_connectivity] passes exactly when the [AT] transaction
    succeeds: a successful transaction ends on [OK] or [SEND OK], so its
    test for a line that contains [OK] adds nothing. *)
Theorem X9_basic_connectivity_is_the_status_of_AT :
  forall ss future,
    fst (test_basic_connectivity (ss, future))
    = fst (fst (fst (ATBNTester.send_command "AT" None false (port ss)
                       future))).
Proof.
  intros ss future.
  unfold test_basic_connectivity, Session.send_command, bind, ret,
    take_note, on_port. cbn [fst snd port notes].
  destruct (ATBNTester.send_command "AT" None false (port ss) future)
    as [[[ok lines] s1] f1] eqn:E.
  cbn [fst snd]. destruct ok; [| reflexivity].
  destruct (success_shape _ _ _ _ _ _ _ _ E) as (pre & t & -> & _ & Ht).
  cbn [andb]. apply any_contains_last.
  destruct Ht as [[Hf _] | [-> | ->]]; [discriminate Hf | |]; reflexivity.
Qed.

(** X10. [setup_wifi] on a usable port writes the mode command, then the
    join command with the credentials, then the address query, each only
    after the one before succeeded, and nothing else: when the mode command
    fails only it was written, and the join command, which carries the
    password, is not; when the join command fails the address query is not
    written; when both succeed all three are written and the result is the
    status of the query and the sight of [STAIP] in its answer.  It returns
    [True] only when all three were written. *)
Theorem X10_setup_wifi_sends_its_commands_in_order :
  forall ssid password ss future,
    usable (port ss) = true ->
    let mode := wire "AT+CWMODE=1" in
    let join := wire (cwjap_command ssid password) in
    let query := wire "AT+CIFSR" in
    let r1 :=
      ATBNTester.send_command "AT+CWMODE=1" None false (port ss) future in
    let r2 :=
      ATBNTester.send_command (cwjap_command ssid password) (Some 30) false
        (snd (fst r1)) (snd r1) in
    let r3 :=
      ATBNTester.send_command "AT+CIFSR" None false (snd (fst r2)) (snd r2) in
    let ok1 := fst (fst (fst r1)) in
    let ok2 := fst (fst (fst r2)) in
    let run := setup_wifi ssid password (ss, future) in
    let ok := fst run in
    let written := txlog (port (fst (snd run))) in
    (ok1 = false -> ok = false /\ written = txlog (port ss) ++ mode)
    /\ (ok1 = true -> ok2 = false ->
          ok = false /\ written = txlog (port ss) ++ mode ++ join)
    /\ (ok1 = true -> ok2 = true ->
          ok = fst (fst (fst r3))
               && any_contains (lit "STAIP") (snd (fst (fst r3)))
          /\ written = txlog (port ss) ++ mode ++ join ++ query)
    /\ (ok = true -> written = txlog (port ss) ++ mode ++ join ++ query)
    /\ (written = txlog (port ss) ++ mode
        \/ written = txlog (port ss) ++ mode ++ join
        \/ written = txlog (port ss) ++ mode ++ join ++ query).
Proof.
  intros ssid password ss future U. cbv zeta.
  unfold setup_wifi, Session.send_command, bind, ret, take_note, on_port.
  cbn [fst snd port notes].
  destruct (ATBNTester.send_command "AT+CWMODE=1" None false (port ss)
              future) as [[[ok1 l1] s1] f1] eqn:E1.
  pose proof (send_command_frame _ _ _ _ _ _ _ _ _ E1)
    as (W1 & _ & _ & _ & _ & R1).
  rewrite U in W1. cbn [fst snd port notes].
  destruct ok1; cbn [negb fst snd port notes].
  2:{ repeat split; try (intros; discriminate); auto. }
  destruct (ATBNTester.send_command (cwjap_command ssid password) (Some 30)
              false s1 f1) as [[[ok2 l2] s2] f2] eqn:E2.
  pose proof (send_command_frame _ _ _ _ _ _ _ _ _ E2)
    as (W2 & _ & _ & _ & _ & R2).
  rewrite (R1 eq_refl), W1, <- app_assoc in W2. cbn [fst snd port notes].
  destruct ok2; cbn [negb fst snd port notes].
  2:{ repeat split; try (intros; discriminate); auto. }
  destruct (ATBNTester.send_command "AT+CIFSR" None false s2 f2)
    as [[[ok3 l3] s3] f3] eqn:E3.
  pose proof (send_command_frame _ _ _ _ _ _ _ _ _ E3)
    as (W3 & _).
  rewrite (R2 eq_refl), W2, <- !app_assoc in W3. cbn [fst snd port notes].
  destruct (ok3 && any_contains (lit "STAIP") l3); cbn [fst snd port];
    repeat split; try (intros; discriminate); auto.
Qed.

Lemma X10_setup_wifi_witness :
  usable (port opening) = true
  /\ fst (setup_wifi "net" "secret" (opening, wifi_script)) = true
  /\ txlog (port (fst (snd (setup_wifi "net" "secret"
                              (opening, wifi_script)))))
     = wire "AT+CWMODE=1" ++ wire (cwjap_command "net" "secret")
         ++ wire "AT+CIFSR".
Proof.
  assert (U : usable (port opening) = true) by reflexivity.
  assert (K : fst (setup_wifi "net" "secret" (opening, wifi_script)) = true)
    by (vm_compute; reflexivity).
  split; [exact U | split; [exact K |]].
  pose proof (X10_setup_wifi_sends_its_commands_in_order
                "net"%string "secret"%string opening wifi_script U) as H.
  cbv zeta in H. destruct H as (_ & _ & _ & Ht & _).
  etransitivity; [exact (Ht K) | reflexivity].
Defined.

Section Substring.

Variable sub : pystr.
Hypothesis sub_no_newline : ~ In 10 sub.
Hypothesis sub_not_empty : sub <> [].

Lemma contains_nil : contains sub [] = false.
Proof. destruct sub; [contradiction | reflexivity]. Qed.

Lemma contains_newline (t : pystr) :
  forall s, contains sub (s ++ 10 :: t) = contains sub s || contains sub t.
Proof.
  induction s as [|d s IH].
  - rewrite contains_nil. cbn [app contains orb].
    change (10 :: t) with ([] ++ 10 :: t) at 1.
    rewrite (Matching.strip_prefix_newline sub sub_no_newline).
    destruct sub; [contradiction | reflexivity].
  - change ((d :: s) ++ 10 :: t) with (d :: (s ++ 10 :: t)).
    cbn [contains].
    change (d :: (s ++ 10 :: t)) with ((d :: s) ++ 10 :: t).
    rewrite (Matching.strip_prefix_newline sub sub_no_newline).
    destruct (Re.strip_prefix sub (d :: s)); [reflexivity | exact IH].
Qed.

(** A text without newline is in the joined response exactly when it is in
    one of its lines. *)
Lemma contains_join (lines : list pystr) :
  contains sub (join newline lines) = any_contains sub lines.
Proof.
  induction lines as [|l [|l' rest] IH].
  - apply contains_nil.
  - cbn [join any_contains existsb]. rewrite orb_false_r. reflexivity.
  - rewrite Matching.join_cons, contains_newline, IH. reflexivity.
Qed.

End Substring.

(** X11. [test_send_ok_confirmation] returns [True] exactly when the
    transaction succeeded and one of its lines contains [SEND OK]: looking
    for the text in the joined response is looking for it line by line, as
    [test_get_http_to_uart] does.  So it passes whenever the transaction
    ended on [SEND OK], and fails when it ended on [OK] and no line
    contains [SEND OK]. *)
Theorem X11_send_ok_confirmation :
  forall json ss future,
    let '(ok, lines, s1, _) :=
      ATBNTester.send_command (get_command json) (Some 30) false (port ss)
        future in
    let passed := fst (test_send_ok_confirmation true json (ss, future)) in
    passed = ok && any_contains (lit "SEND OK") lines
    /\ (forall pre, heard (port ss) s1 = pre ++ [lit "SEND OK"] ->
          passed = true)
    /\ (forall pre, heard (port ss) s1 = pre ++ [lit "OK"] ->
          any_contains (lit "SEND OK") pre = false -> passed = false).
Proof.
  intros json ss future.
  unfold test_send_ok_confirmation, Session.send_command, bind, ret,
    take_note, on_port. cbn [negb fst snd port notes].
  destruct (ATBNTester.send_command (get_command json) (Some 30) false
              (port ss) future) as [[[ok lines] s1] f1] eqn:E.
  cbn [fst snd port notes].
  match goal with
  | |- ?passed = _ /\ _ =>
    assert (R : passed = ok && any_contains (lit "SEND OK") lines)
  end.
  { destruct ok; [| reflexivity]. cbn beta iota delta [fst andb].
    apply contains_join; [| discriminate].
    vm_compute; intuition discriminate. }
  rewrite R. clear R.
  split; [reflexivity | split].
  - intros pre Hh.
    assert (Tt : In (lit "SEND OK") terminal_tokens)
      by (right; right; left; reflexivity).
    assert (Hh' : heard (port ss) s1 = pre ++ lit "SEND OK" :: [])
      by exact Hh.
    destruct (terminal_line_is_last _ _ _ _ _ _ _ _ _ _ _ _ E Hh' Tt)
      as (_ & -> & Hok & _).
    rewrite (proj2 Hok) by (right; reflexivity).
    cbn [andb]. apply any_contains_last. reflexivity.
  - intros pre Hh Hn.
    assert (Tt : In (lit "OK") terminal_tokens) by (left; reflexivity).
    assert (Hh' : heard (port ss) s1 = pre ++ lit "OK" :: []) by exact Hh.
    destruct (terminal_line_is_last _ _ _ _ _ _ _ _ _ _ _ _ E Hh' Tt)
      as (_ & -> & _).
    unfold any_contains in *. rewrite existsb_app, Hn.
    rewrite andb_comm. reflexivity.
Qed.

Lemma X11_send_ok_confirmation_witness :
  heard (port opening)
    (snd (fst (ATBNTester.send_command (get_command "http://x/j") (Some 30)
                 false (port opening) download_script)))
    = [lit "+LEN:2,"; lit "+POST:2,{}"] ++ [lit "SEND OK"]
  /\ fst (test_send_ok_confirmation true "http://x/j"
            (opening, download_script)) = true.
Proof.
  pose proof (X11_send_ok_confirmation "http://x/j"%string opening
                download_script) as H.
  destruct (ATBNTester.send_command (get_command "http://x/j") (Some 30)
              false (port opening) download_script)
    as [[[ok lines] s1] f1] eqn:E.
  assert (Hh : heard (port opening) s1
               = [lit "+LEN:2,"; lit "+POST:2,{}"] ++ [lit "SEND OK"]).
  { vm_compute in E. injection E as _ _ <- _. vm_compute. reflexivity. }
  split; [exact Hh |].
  destruct H as (_ & Hs & _). exact (Hs _ Hh).
Defined.

(** X15. The payload of [test_post_with_content_type] is written on the
    sight of a [">"] anywhere in a line, not only on the prompt: when the
    device answers the command with [OK] or [SEND OK] without prompting, the
    payload is written after the command exactly when one of the lines
    before the token contains [">"]. *)
Theorem X15_payload_without_a_prompt :
  forall post ss future pre t,
    usable (port ss) = true ->
    t = lit "OK" \/ t = lit "SEND OK" ->
    heard (port ss)
      (snd (fst (ATBNTester.send_command (post_text_command post) None true
                   (port ss) future))) = pre ++ [t] ->
    txlog (port (fst (snd (test_post_with_content_type true post
                             (ss, future)))))
    = txlog (port ss) ++ wire (post_text_command post)
        ++ (if any_contains (lit ">") pre
            then list_byte_of_string "hello-from-esp32!!" else []).
Proof.
  intros post ss future pre t U Ht.
  unfold test_post_with_content_type, Session.send_command, bind, ret,
    take_note, on_port. cbn [negb fst snd port notes].
  destruct (ATBNTester.send_command (post_text_command post) None true
              (port ss) future) as [[[ok1 lines1] s1] f1] eqn:E.
  cbn [fst snd]. intros Hh.
  pose proof (send_command_frame _ _ _ _ _ _ _ _ _ E)
    as (W & _ & _ & _ & _ & R).
  rewrite U in W.
  assert (Tt : In t terminal_tokens)
    by (destruct Ht as [-> | ->]; simpl; auto).
  assert (Hh' : heard (port ss) s1 = pre ++ t :: []) by exact Hh.
  destruct (terminal_line_is_last _ _ _ _ _ _ _ _ _ _ _ _ E Hh' Tt)
    as (_ & -> & Hok & _).
  rewrite (proj2 Hok Ht) in *. cbn [andb].
  assert (A : any_contains (lit ">") (pre ++ [t])
              = any_contains (lit ">") pre).
  { unfold any_contains. rewrite existsb_app. cbn [existsb].
    destruct Ht as [-> | ->]; cbn; rewrite !orb_false_r; reflexivity. }
  rewrite A.
  destruct (any_contains (lit ">") pre).
  - match goal with
    | |- context [send_data ?d ?t ?w] =>
      destruct (send_data d t w) as [[ok2 l2] [ss2 f2]] eqn:E2
    end.
    apply send_data_frame in E2. destruct E2 as [W2 _].
    cbn [port] in W2. rewrite (R eq_refl) in W2.
    cbn [fst snd port]. rewrite W2, W, <- app_assoc. reflexivity.
  - cbn [fst snd port]. rewrite W, app_nil_r. reflexivity.
Qed.

Lemma X15_payload_without_a_prompt_witness :
  usable (port opening) = true
  /\ txlog (port (fst (snd (test_post_with_content_type true "http://x/p"
                              (opening, page_script)))))
     = wire (post_text_command "http://x/p")
         ++ list_byte_of_string "hello-from-esp32!!".
Proof.
  assert (U : usable (port opening) = true) by reflexivity.
  split; [exact U |].
  rewrite (X15_payload_without_a_prompt "http://x/p"%string opening
             page_script [lit "<html>"] (lit "OK") U
             (or_introl eq_refl)).
  - vm_compute. reflexivity.
  - vm_compute. reflexivity.
Defined.

(** X16. On the same URL and in the same world, [test_get_http_to_uart]
    passes exactly when [test_send_ok_confirmation] passes and a line of
    the response contains [+LEN:]. *)
Theorem X16_get_tests_agree :
  forall url ss future,
    fst (test_get_http_to_uart true url (ss, future))
    = Finished
        (any_contains (lit "+LEN:")
           (snd (fst (fst (ATBNTester.send_command (get_command url)
                             (Some 30) false (port ss) future))))
         && fst (test_send_ok_confirmation true url (ss, future))).
Proof.
  intros url ss future.
  unfold test_get_http_to_uart, test_send_ok_confirmation,
    Session.send_command, bind, ret, take_note, on_port.
  cbn [negb fst snd port notes].
  destruct (ATBNTester.send_command (get_command url) (Some 30) false
              (port ss) future) as [[[ok lines] s1] f1].
  cbn [fst snd port notes].
  destruct ok; cbn [fst]; [| rewrite andb_false_r; reflexivity].
  rewrite contains_join;
    [reflexivity | vm_compute; intuition discriminate | discriminate].
Qed.

End Callers.

(** ** Counting the chunk markers *)

Module Counting.
Import Re DownloadFrame.

Section Tag.

(** A tag whose first character does not occur again in it. *)
Variables (c0 : Z) (rest suf : pystr).
Hypothesis first_not_again : ~ In c0 rest.

Let tag : pystr := c0 :: rest.

Lemma strip_prefix_split (p s r : pystr) :
  strip_prefix p s = Some r -> s = p ++ r.
Proof.
  revert s; induction p as [|c p IH]; intros s H.
  - injection H as ->; reflexivity.
  - destruct s as [|d s]; [discriminate H |]. simpl in H.
    destruct (Z.eqb_spec c d) as [-> |]; [| discriminate H].
    simpl; rewrite (IH _ H); reflexivity.
Qed.

Lemma after_tag (x : Z) (s r : pystr) :
  strip_prefix tag (x :: s) = Some r ->
  x = c0 /\ clear_of_tag c0 (Nat.pred (List.length tag)) s.
Proof.
  intros H. apply strip_prefix_split in H. unfold tag in H.
  injection H as -> ->. split; [reflexivity |].
  unfold clear_of_tag, tag. cbn [List.length Nat.pred].
  rewrite firstn_app, firstn_all, Nat.sub_diag. cbn [firstn].
  rewrite app_nil_r. apply Forall_forall. intros c Hc ->. contradiction.
Qed.

Lemma match_at_tag (s g : pystr) (n : nat) :
  match_at tag suf s = Some (g, n) -> exists r, strip_prefix tag s = Some r.
Proof.
  unfold match_at. destruct (strip_prefix tag s) as [r|]; [| discriminate].
  intros _; exists r; reflexivity.
Qed.

Lemma count_from_nonneg (s : pystr) :
  forall k, 0 <= count_from tag k s.
Proof.
  induction s as [|x s IH]; intros k; cbn [count_from]; [lia |].
  destruct k as [|k]; [| apply IH].
  destruct (strip_prefix tag (x :: s)); [| apply IH].
  pose proof (IH (Nat.pred (List.length tag))). lia.
Qed.

(** There are at least as many occurrences of the tag as matches of the
    pattern that starts with it. *)
Lemma matches_le_occurrences (s : pystr) :
  forall k k', clear_of_tag c0 k s ->
    Z.of_nat (List.length (findall_from tag suf k' s))
    <= count_from tag k s.
Proof.
  induction s as [|x s IH]; intros k k' Hk; [cbn; lia |].
  assert (Tail : forall i, clear_of_tag c0 (S i) (x :: s) ->
                   x <> c0 /\ clear_of_tag c0 i s).
  { intros i H. unfold clear_of_tag in H. cbn [firstn] in H.
    inversion H; subst. split; assumption. }
  assert (Z0 : clear_of_tag c0 0 s) by constructor.
  cbn [findall_from count_from].
  destruct k' as [|j].
  - destruct (match_at tag suf (x :: s)) as [[g n]|] eqn:M.
    + destruct (match_at_tag _ _ _ M) as [r Hr].
      destruct (after_tag _ _ _ Hr) as [-> Hc].
      destruct k as [|i]; [| destruct (Tail i Hk) as [Hx _]; contradiction].
      rewrite Hr. cbn [List.length].
      pose proof (IH _ (Nat.pred n) Hc). lia.
    + destruct k as [|i]; [| apply IH; apply (Tail i Hk)].
      destruct (strip_prefix tag (x :: s)) as [r|] eqn:Hr; [| apply IH, Z0].
      destruct (after_tag _ _ _ Hr) as [_ Hc].
      pose proof (IH _ 0%nat Hc). lia.
  - destruct k as [|i]; [| apply IH; apply (Tail i Hk)].
    destruct (strip_prefix tag (x :: s)) as [r|] eqn:Hr; [| apply IH, Z0].
    destruct (after_tag _ _ _ Hr) as [_ Hc].
    pose proof (IH _ j Hc). lia.
Qed.

End Tag.

(** X12. The number of chunks [extract_download_stats] reports is never
    smaller than the number of chunk sizes the pattern [\+POST:(\d+),]
    finds in the same response: it counts every [+POST:], also one that no
    digits and comma follow; and it reports no chunk count only when the
    pattern finds no chunk either. *)
Theorem X12_chunk_count_covers_the_chunk_sizes (response : pystr) :
  match chunks_received (extract_download_stats response) with
  | Some k => Z.of_nat (List.length (post_pattern response)) <= k
  | None => post_pattern response = []
  end.
Proof.
  unfold extract_download_stats, post_pattern, findall, count.
  cbn [chunks_received].
  assert (N : ~ In 43 (lit "POST:")) by (vm_compute; intuition discriminate).
  pose proof (matches_le_occurrences 43 (lit "POST:") (lit ",") N response
                0%nat 0%nat (Forall_nil _)) as H.
  change (43 :: lit "POST:") with (lit "+POST:") in H.
  destruct (Z.ltb_spec 0 (count_from (lit "+POST:") 0 response)) as [P | P];
    [exact H |].
  destruct (findall_from (lit "+POST:") (lit ",") 0 response);
    [reflexivity | cbn [List.length] in H; lia].
Qed.

End Counting.

(** ** The copies of the engine *)

Section Copies.

Lemma response_loops_agree st cs tmo :
  forall future lines s,
    (let '(ex, s', f') :=
       PerformanceTester.response_loop st cs tmo lines future s in
     (drop_exit_time ex, s', f'))
    = SimpleATTester.response_loop cs tmo lines future s
    /\ (forall ok text t s' f',
          PerformanceTester.response_loop st cs tmo lines future s
            = (Returned (ok, text, t), s', f') ->
          t = now s' - st).
Proof.
  induction future as [|tk future IH]; intros lines s.
  - split; [reflexivity | intros ok text t s' f' H; discriminate H].
  - cbn [PerformanceTester.response_loop SimpleATTester.response_loop].
    destruct (now (arrive tk s) - cs <? 1000 * tmo);
      [| split; [reflexivity | intros ok text t s' f' H; discriminate H]].
    destruct (link_up (arrive tk s));
      [| split; [reflexivity | intros ok text t s' f' H; discriminate H]].
    destruct (0 <? Z.of_nat (List.length (rxbuf (arrive tk s))));
      [| apply IH].
    destruct (readline (rxbuf (arrive tk s))) as [raw rest].
    destruct (strip (Utf8.decode raw)) as [|c line']; [apply IH |].
    destruct (str_in (c :: line') terminal_tokens); [| apply IH].
    split; [reflexivity |].
    intros ok text t s' f' H. injection H as _ _ <- <- _. reflexivity.
Qed.

(** X13. [PerformanceTester.send_at_command] with no extended timeout and
    [SimpleATTester.send_at_command] are the same engine: on the same
    tester and script they return the same status and text, or both let
    the exception through, and leave the same script; on a connected tester
    they leave the same state.  The elapsed time the first one adds to a
    result reached inside its loop is the clock at the return minus the
    clock at the call. *)
Theorem X13_performance_and_simple_engines_agree :
  forall command s future,
    let '(o1, s1, f1) := SimpleATTester.send_at_command command s future in
    let '(o2, s2, f2) :=
      PerformanceTester.send_at_command command None s future in
    o1 = drop_time o2 /\ f1 = f2
    /\ (connected s = true -> s1 = s2)
    /\ (forall ok text t,
          o2 = Value (ok, text, t) -> connected s = true ->
          t = now s2 - now s).
Proof.
  intros command s future.
  unfold SimpleATTester.send_at_command, PerformanceTester.send_at_command.
  destruct (connected s); cbn [negb].
  2:{ repeat split; try reflexivity; intros; congruence. }
  cbn [py_or].
  change (link_up (logging (Print_Sending command) s)) with (link_up s).
  destruct (link_up s).
  2:{ repeat split; try reflexivity; intros; congruence. }
  match goal with
  | |- context [PerformanceTester.response_loop ?a ?b ?c ?d ?f ?g] =>
    pose proof (response_loops_agree a b c f d g) as [A T];
    destruct (PerformanceTester.response_loop a b c d f g)
      as [[ex s2] f2] eqn:E
  end.
  cbn [now write logging self_timeout] in *.
  match goal with
  | |- context [SimpleATTester.response_loop ?a ?b ?c ?d ?f] =>
    destruct (SimpleATTester.response_loop a b c d f)
      as [[ex1 s1] f1] eqn:E1
  end.
  injection A as <- <- <-.
  destruct ex as [[[ok text] t] | ls |]; cbn [drop_exit_time drop_time].
  - repeat split; try reflexivity.
    intros ok' text' t' H _. injection H as _ _ <-.
    apply (T ok text t s2 f2). reflexivity.
  - repeat split; try reflexivity.
    intros ok' text' t' H _. injection H as _ _ <-. reflexivity.
  - repeat split; try reflexivity.
    intros ok' text' t' H; discriminate H.
Qed.

End Copies.

(** ** The sizes of a frame *)

Section Sizes.
Import Re DownloadFrame.

Lemma digit_value_nonneg (c : Z) : 0 <= digit_value c.
Proof.
  unfold digit_value.
  destruct (find (fun z => (z <=? c) && (c <? z + 10)) nd_zeros) as [z|] eqn:F;
    [| lia].
  apply find_some in F. destruct F as [_ F].
  apply andb_true_iff in F. destruct F as [F _]. apply Z.leb_le in F. lia.
Qed.

Lemma int_nonneg (s : pystr) : 0 <= int s.
Proof.
  unfold int.
  assert (G : forall l a, 0 <= a ->
              0 <= fold_left (fun acc c => 10 * acc + digit_value c) l a).
  { induction l as [|c l IH]; intros a Ha; [exact Ha |].
    cbn [fold_left]. apply IH. pose proof (digit_value_nonneg c). lia. }
  apply G; lia.
Qed.

Lemma sum_shift (l : list Z) (a : Z) :
  fold_left Z.add l a = a + fold_left Z.add l 0.
Proof.
  revert a; induction l as [|x l IH]; intros a; cbn [fold_left]; [lia |].
  rewrite (IH (a + x)), (IH (0 + x)). lia.
Qed.

Lemma sum_bounds (l : list Z) :
  Forall (fun n => 0 <= n) l ->
  0 <= sum l /\ Forall (fun n => n <= sum l) l.
Proof.
  unfold sum. induction 1 as [|x l Hx HF [IH0 IH]]; cbn [fold_left].
  - split; [lia | constructor].
  - rewrite sum_shift. split; [lia |].
    constructor; [lia |].
    eapply Forall_impl; [| exact IH]. cbn. intros n Hn. lia.
Qed.

(** X14. No declared length and no chunk size read from a response is
    negative, whatever the response, so the total of the chunks is at least
    every single chunk. *)
Theorem X14_frame_sizes_are_not_negative (response : list pystr) :
  (forall n, expected_len response = Some n -> 0 <= n)
  /\ Forall (fun n => 0 <= n) (post_sizes response)
  /\ 0 <= total_post_bytes response
  /\ Forall (fun n => n <= total_post_bytes response) (post_sizes response).
Proof.
  assert (P : Forall (fun n => 0 <= n) (post_sizes response)).
  { unfold post_sizes. apply Forall_forall. intros n Hn.
    apply in_map_iff in Hn. destruct Hn as [g [<- _]]. apply int_nonneg. }
  split; [| split; [exact P | apply sum_bounds; exact P]].
  intros n H. unfold expected_len in H.
  destruct (len_pattern (join newline response)); [| discriminate H].
  injection H as <-. apply int_nonneg.
Qed.

End Sizes.
